(** * Chat hooks of sleepy.bike: [src/hooks/data/useCreateMessage.ts]

    A shallow embedding of the four hooks of the file
    ([useCreateMessage], [useCreateMessageNotification], [useCreateChat],
    [useProcessNotification]) and of the LDO shapes they read and write,
    followed by the properties of the chat handshake. *)

From Stdlib Require Import Ascii.
From Stdlib Require DecimalString DecimalNat.
From stdpp Require Import base strings list gmap.

(** ** Values *)

(** [URI] of [types]: an alias of the JavaScript string. *)
Definition URI : Type := string.

(** A node mentioned by reference only, [{ '@id': u }]. *)
Inductive NodeRef : Type := AtId (id : URI).

Definition at_id (n : NodeRef) : URI := let 'AtId u := n in u.

#[global] Instance NodeRef_eq_dec : EqDecision NodeRef.
Proof. solve_decision. Defined.

(** A JavaScript exception value, [new Error(message)]. *)
Inductive Exn : Type := Error (message : string).

#[global] Instance Exn_eq_dec : EqDecision Exn.
Proof. solve_decision. Defined.

(** How a call ends: it returns (a promise resolves) or it throws (a
    promise rejects). *)
Inductive Outcome (A : Type) : Type :=
| Returned (a : A)
| Thrown (e : Exn).
Arguments Returned {A} a.
Arguments Thrown {A} e.

(** Truthiness of a JavaScript string: only the empty string is falsy. *)
Definition truthy (s : string) : bool :=
  match s with
  | EmptyString => false
  | String _ _ => true
  end.

(** ** Shapes ([ldo/app.typings], after the ShEx shapes) *)

(** [ex:ChatMessageShape]. *)
Record ChatMessageShape : Type := {
  msg_id : URI;
  msg_created : string;
  msg_content : string;
  msg_maker : NodeRef
}.

(** [ex:ChatParticipationShape]. [references] is an optional array; the
    hooks read [participant] through [?.], so it is optional here too. *)
Record ChatParticipationShape : Type := {
  part_id : URI;
  dtstart : string;
  participant : option NodeRef;
  references : option (list NodeRef)
}.

(** [ex:ChatShape]. The typings call [dc:created] of a chat [created2]
    ([created] is [dct:created] of a message). *)
Record ChatShape : Type := {
  chat_id : URI;
  chat_type : NodeRef;
  author : NodeRef;
  created2 : string;
  title : string;
  participation : option (list ChatParticipationShape);
  message : option (list ChatMessageShape)
}.

#[global] Instance ChatMessageShape_eq_dec : EqDecision ChatMessageShape.
Proof. solve_decision. Defined.
#[global] Instance ChatParticipationShape_eq_dec : EqDecision ChatParticipationShape.
Proof. solve_decision. Defined.
#[global] Instance ChatShape_eq_dec : EqDecision ChatShape.
Proof. solve_decision. Defined.

(** Assignment to one property of an object held in the store. *)
Definition set_references (r : option (list NodeRef))
    (p : ChatParticipationShape) : ChatParticipationShape :=
  {| part_id := part_id p; dtstart := dtstart p;
     participant := participant p; references := r |}.

Definition set_participation (ps : option (list ChatParticipationShape))
    (c : ChatShape) : ChatShape :=
  {| chat_id := chat_id c; chat_type := chat_type c; author := author c;
     created2 := created2 c; title := title c;
     participation := ps; message := message c |}.

Definition set_message (ms : option (list ChatMessageShape))
    (c : ChatShape) : ChatShape :=
  {| chat_id := chat_id c; chat_type := chat_type c; author := author c;
     created2 := created2 c; title := title c;
     participation := participation c; message := ms |}.

(** ** The transform of [useProcessNotification] (lines 240-254)

    A transform mutates the object it is given and may throw; it is a
    function from the object to the outcome paired with the object as the
    transform leaves it. *)
Definition Transform (S : Type) : Type := S → Outcome unit * S.

Definition no_participation : Exn := Error "no participation".
Definition too_much_participation : Exn :=
  Error "too much participation (only 2 people supported!)".
Definition participation_not_found : Exn :=
  Error "other person's participation not found".
Definition already_references : Exn :=
  Error "participation alread references some other chat".

(** [p.participant?.['@id']]: undefined, or the id. *)
Definition participant_id (p : ChatParticipationShape) : option URI :=
  at_id <$> participant p.

(** [participation.references && participation.references?.length > 0]. *)
Definition has_references (p : ChatParticipationShape) : bool :=
  match references p with
  | None => false
  | Some rs => bool_decide (0 < length rs)
  end.

Definition processTransform (otherChat otherPerson : URI) : Transform ChatShape :=
  λ ldo,
    match participation ldo with
    | None => (Thrown no_participation, ldo)
    | Some ps =>
      if bool_decide (2 < length ps) then (Thrown too_much_participation, ldo)
      else
        match list_find (λ p, participant_id p = Some otherPerson) ps with
        | None => (Thrown participation_not_found, ldo)
        | Some (i, p) =>
          if has_references p then (Thrown already_references, ldo)
          else
            (Returned (),
             set_participation
               (Some (<[i := set_references (Some [AtId otherChat]) p]> ps)) ldo)
        end
    end.

(** [ex:MessageActivity]. *)
Record MessageActivity : Type := {
  activity_id : URI;
  activity_type : list NodeRef;
  actor : NodeRef;
  context : NodeRef;
  object : NodeRef;
  target : NodeRef;
  updated : string
}.

(** An authorization of [ldo/wac.typings]; its [default] is [default_]
    here. *)
Record Authorization : Type := {
  auth_id : URI;
  auth_type : NodeRef;
  agent : list NodeRef;
  accessTo : list NodeRef;
  default_ : NodeRef;
  mode : list NodeRef
}.

(** [ex:TypeRegistration] and [ex:PrivateTypeIndex]. *)
Record TypeRegistration : Type := {
  reg_id : URI;
  reg_type : NodeRef;
  forClass : list NodeRef;
  instance : option (list NodeRef)
}.

Record PrivateTypeIndex : Type := {
  index_id : URI;
  index_references : option (list TypeRegistration)
}.

#[global] Instance MessageActivity_eq_dec : EqDecision MessageActivity.
Proof. solve_decision. Defined.
#[global] Instance Authorization_eq_dec : EqDecision Authorization.
Proof. solve_decision. Defined.
#[global] Instance TypeRegistration_eq_dec : EqDecision TypeRegistration.
Proof. solve_decision. Defined.
#[global] Instance PrivateTypeIndex_eq_dec : EqDecision PrivateTypeIndex.
Proof. solve_decision. Defined.

Definition set_instance (insts : option (list NodeRef))
    (r : TypeRegistration) : TypeRegistration :=
  {| reg_id := reg_id r; reg_type := reg_type r;
     forClass := forClass r; instance := insts |}.

Definition set_index_references (rs : option (list TypeRegistration))
    (x : PrivateTypeIndex) : PrivateTypeIndex :=
  {| index_id := index_id x; index_references := rs |}.

(** ** What the hooks import from outside this file *)

(** The result of [parse-link-header]: the relations of a [Link] header;
    the hooks read [links?.acl?.url] only. *)
Record Link : Type := { url : string }.
Record Links : Type := { acl : option Link }.

(** A calendar date as [dayjs()] holds it: year, month (1-12), day. *)
Record Date : Type := { year : nat; month : nat; day : nat }.

#[global] Instance Date_eq_dec : EqDecision Date.
Proof. solve_decision. Defined.

Class Imports : Type := {
  (** [utils/helpers] *)
  getContainer : URI → URI;
  (** [utils/rdf-namespaces] *)
  meeting_LongChat : URI;
  acl_Read : URI;
  acl_Write : URI;
  acl_Control : URI;
  (** [rdf-namespaces/dist/solid] *)
  publicTypeIndex : URI;
  (** [parse-link-header], applied to [headers.get('link')] *)
  parseLinkHeader : option string → option Links
}.

(** ** [dayjs().format('YYYY/MM/DD')]

    dayjs pads the year to four digits and month and day to two, with
    zeros, and copies the slashes. *)
Definition decimal (n : nat) : string :=
  DecimalString.NilEmpty.string_of_uint (Nat.to_uint n).

Fixpoint repeat_char (c : Ascii.ascii) (n : nat) (s : string) : string :=
  match n with
  | 0 => s
  | S n => String c (repeat_char c n s)
  end.

(** [String(n).padStart(width, '0')]. *)
Definition padStart (width : nat) (s : string) : string :=
  repeat_char "0"%char (width - String.length s) s.

Definition format_YYYY_MM_DD (d : Date) : string :=
  padStart 4 (decimal (year d)) +:+ "/" +:+
  padStart 2 (decimal (month d)) +:+ "/" +:+
  padStart 2 (decimal (day d)).

(** Whether a string holds a slash. *)
Fixpoint has_slash (s : string) : bool :=
  match s with
  | EmptyString => false
  | String c s => bool_decide (c = "/"%char) || has_slash s
  end.

(** ** Calls that leave the hook

    Each hook is a sequence of calls to its collaborators: the mutations
    of [./useRdfDocument], the authenticated [fetch], [uuid.v4] and the
    clock. A call is answered by whoever runs the hook. *)

(** What [fetch] resolves to; the hooks read [headers.get('link')] only. *)
Record HttpResponse : Type := { link_header : option string }.

Inductive Call : Type :=
(** [useCreateRdfDocument(ChatShapeShapeType)]: [mutateAsync({uri, method, data})] *)
| CreateChatDocument (uri : URI) (method : option string) (data : ChatShape)
(** [useCreateRdfDocument(MessageActivityShapeType)] *)
| CreateActivityDocument (uri : URI) (method : option string) (data : MessageActivity)
(** [useCreateRdfDocument(AuthorizationShapeType)] *)
| CreateAuthorizationDocument (uri : URI) (method : option string)
    (data : list Authorization)
(** [useUpdateLdoDocument(ChatShapeShapeType)]: [mutateAsync({uri, subject, transform})] *)
| UpdateChatDocument (uri subject : URI) (transform : Transform ChatShape)
(** [useUpdateLdoDocument(PrivateTypeIndexShapeType)]; the transform is
    given the value that [uuid.v4()] takes inside it *)
| UpdatePrivateTypeIndex (uri subject : URI)
    (transform : string → Transform PrivateTypeIndex)
(** [useDeleteRdfDocument()]: [mutateAsync({uri})] *)
| DeleteRdfDocument (uri : URI)
(** [fetch(uri, {method})] *)
| Fetch (uri : URI) (method : string)
(** [uuid.v4()] *)
| Uuid_v4
(** [dayjs()] *)
| Dayjs
(** [new Date().toISOString()] *)
| Date_toISOString.

Definition Response (c : Call) : Type :=
  match c with
  | CreateChatDocument _ _ _ | CreateActivityDocument _ _ _
  | CreateAuthorizationDocument _ _ _ | UpdateChatDocument _ _ _
  | UpdatePrivateTypeIndex _ _ _ | DeleteRdfDocument _ => Outcome unit
  | Fetch _ _ => Outcome HttpResponse
  | Uuid_v4 => string
  | Dayjs => Date
  | Date_toISOString => string
  end.

(** An async function body: it returns, throws, or makes a call and goes
    on with the answer. *)
Inductive Prog (A : Type) : Type :=
| Return (a : A)
| Throw (e : Exn)
| Do (c : Call) (k : Response c → Prog A).
Arguments Return {A} a.
Arguments Throw {A} e.
Arguments Do {A} c k.

(** [const x = await c; k]: a rejected promise is rethrown. *)
Notation "'await' x ← c ; k" :=
  (Do c (λ r, match r with Returned x => k | Thrown e => Throw e end))
  (at level 10, x pattern, c at level 100, k at level 200, only parsing).

(** [const x = c; k] for a call that cannot fail. *)
Notation "'const' x ← c ; k" := (Do c (λ x, k))
  (at level 10, x name, c at level 100, k at level 200, only parsing).

(** ** The hooks *)

Record CreatedMessage : Type :=
  { messageId : URI; todayChat : URI; createdAt : string }.

Record CreatedChat : Type :=
  { chatContainer : URI; chatFile : URI; chatId : URI }.

Definition no_wac_link : Exn :=
  Error "We could not find WAC link for a given resource".

Section Hooks.
Context {imports : Imports}.

(** Lines 43-51. *)
Definition messageTransform (id createdAt content senderId : string)
    : Transform ChatShape :=
  λ ldo,
    (Returned (),
     set_message
       (Some (default [] (message ldo) ++
              [{| msg_id := id; msg_created := createdAt;
                  msg_content := content; msg_maker := AtId senderId |}]))
       ldo).

(** Lines 35-54. *)
Definition useCreateMessage (senderId : URI) (message : string) (chat : URI)
    : Prog CreatedMessage :=
  let container := getContainer chat in
  const today ← Dayjs;
  let chatFile := container +:+ format_YYYY_MM_DD today +:+ "/chat.ttl" in
  const uuid ← Uuid_v4;
  let id := chatFile +:+ "#msg-" +:+ uuid in
  const createdAt ← Date_toISOString;
  const today' ← Dayjs;
  await _ ← UpdateChatDocument
             (getContainer chat +:+ format_YYYY_MM_DD today' +:+ "/chat.ttl")
             chat (messageTransform id createdAt message senderId);
  Return {| messageId := id; todayChat := chatFile; createdAt := createdAt |}.

(** Lines 77-92. *)
Definition useCreateMessageNotification
    (inbox senderId messageId chatId : URI) (updated : string) : Prog unit :=
  await _ ← CreateActivityDocument inbox (Some "POST")
             {| activity_id := EmptyString;
                activity_type := [AtId "Add"];
                actor := AtId senderId;
                context := AtId "https://www.pod-chat.com/LongChatMessage";
                object := AtId messageId;
                target := AtId chatId;
                updated := updated |};
  Return ().

(** The test of line 186-190:
    [registration.forClass.some(fc => fc['@id'] === meeting.LongChat ||
    fc['@id'] === 'LongChat')]. *)
Definition registers_LongChat (registration : TypeRegistration) : Prop :=
  Exists (λ fc, at_id fc = meeting_LongChat ∨ at_id fc = "LongChat")
         (forClass registration).

#[global] Instance registers_LongChat_dec registration :
  Decision (registers_LongChat registration).
Proof. unfold registers_LongChat. apply _. Defined.

(** Lines 184-204. *)
Definition typeIndexTransform (chatId : URI) (uuid : string)
    : Transform PrivateTypeIndex :=
  λ ldo,
    let typeRegistration :=
      index_references ldo ≫= list_find registers_LongChat in
    match typeRegistration with
    | Some (i, typeRegistration) =>
      (Returned (),
       set_index_references
         (Some (<[i := set_instance
                         (Some (default [] (instance typeRegistration) ++
                                [AtId chatId]))
                         typeRegistration]>
                  (default [] (index_references ldo))))
         ldo)
    | None =>
      (Returned (),
       set_index_references
         (Some (default [] (index_references ldo) ++
                [{| reg_id := publicTypeIndex +:+ "#" +:+ uuid;
                    reg_type := AtId "TypeRegistration";
                    forClass := [AtId "LongChat"];
                    instance := Some [AtId chatId] |}]))
         ldo)
    end.

(** Lines 116-206. *)
Definition useCreateChat (me otherPerson : URI) (otherChat : option URI)
    (hospexContainer privateTypeIndex : URI) : Prog CreatedChat :=
  const uuid1 ← Uuid_v4;
  let chatContainer := hospexContainer +:+ "messages/" +:+ uuid1 +:+ "/" in
  let chatFile := chatContainer +:+ "index.ttl" in
  let chatId := chatFile +:+ "#this" in
  const date ← Date_toISOString;
  const uuid2 ← Uuid_v4;
  const uuid3 ← Uuid_v4;
  await _ ← CreateChatDocument chatFile None
             {| chat_id := chatId;
                chat_type := AtId "LongChat";
                author := AtId me;
                created2 := date;
                title := "Hospex chat channel";
                participation := Some
                  [ {| part_id := chatFile +:+ "#" +:+ uuid2;
                       dtstart := date;
                       participant := Some (AtId me);
                       references := None |};
                    {| part_id := chatFile +:+ "#" +:+ uuid3;
                       dtstart := date;
                       participant := Some (AtId otherPerson);
                       references := Some
                         match otherChat with
                         | Some c => if truthy c then [AtId c] else []
                         | None => []
                         end |} ];
                message := None |};
  await response ← Fetch chatContainer "HEAD";
  let linkHeader := link_header response in
  let links := parseLinkHeader linkHeader in
  let aclUri := url <$> (links ≫= acl) in
  match aclUri with
  | None => Throw no_wac_link
  | Some aclUri =>
    if negb (truthy aclUri) then Throw no_wac_link
    else
      await _ ← CreateAuthorizationDocument aclUri None
        [ {| auth_id := aclUri +:+ "#ReadWriteControl";
             auth_type := AtId "Authorization";
             agent := [AtId me];
             accessTo := [AtId chatContainer];
             default_ := AtId chatContainer;
             mode := [AtId acl_Read; AtId acl_Write; AtId acl_Control] |};
          {| auth_id := aclUri +:+ "#Read";
             auth_type := AtId "Authorization";
             agent := [AtId otherPerson];
             accessTo := [AtId chatContainer];
             default_ := AtId chatContainer;
             mode := [AtId acl_Read] |} ];
      await _ ← UpdatePrivateTypeIndex privateTypeIndex privateTypeIndex
                 (typeIndexTransform chatId);
      Return {| chatContainer := chatContainer; chatFile := chatFile;
                chatId := chatId |}
  end.

(** Lines 237-257. *)
Definition useProcessNotification
    (notificationId chat otherChat otherPerson : URI) : Prog unit :=
  await _ ← UpdateChatDocument chat chat (processTransform otherChat otherPerson);
  await _ ← DeleteRdfDocument notificationId;
  Return ().
End Hooks.

(** ** Running a hook

    A handler answers every call and threads its own state; a run yields
    the outcome of the hook, the calls made with their answers in order,
    and the handler's final state. *)
Record Event : Type := Ev { ev_call : Call; ev_response : Response ev_call }.

Definition Handler (W : Type) : Type := ∀ c : Call, W → Response c * W.

Fixpoint run {W A : Type} (h : Handler W) (p : Prog A) (w : W)
    : Outcome A * list Event * W :=
  match p with
  | Return a => (Returned a, [], w)
  | Throw e => (Thrown e, [], w)
  | Do c k =>
    let '(r, w1) := h c w in
    let '(o, t, w2) := run h (k r) w1 in
    (o, Ev c r :: t, w2)
  end.

Definition outcome {W A : Type} (x : Outcome A * list Event * W) : Outcome A := x.1.1.
Definition trace {W A : Type} (x : Outcome A * list Event * W) : list Event := x.1.2.
Definition final {W A : Type} (x : Outcome A * list Event * W) : W := x.2.

(** The calls of a trace that are mutations of a given kind. *)
Definition is_delete (c : Call) : bool :=
  match c with DeleteRdfDocument _ => true | _ => false end.
Definition is_create_authorization (c : Call) : bool :=
  match c with CreateAuthorizationDocument _ _ _ => true | _ => false end.
Definition is_update_type_index (c : Call) : bool :=
  match c with UpdatePrivateTypeIndex _ _ _ => true | _ => false end.
Definition is_create_activity (c : Call) : bool :=
  match c with CreateActivityDocument _ _ _ => true | _ => false end.
Definition is_update (c : Call) : bool :=
  match c with
  | UpdateChatDocument _ _ _ | UpdatePrivateTypeIndex _ _ _ => true
  | _ => false
  end.

Definition calls (t : list Event) : list Call := ev_call <$> t.

(** What a [fetch] was answered with, the date a [dayjs()] read, the
    string a [uuid.v4()] or a [toISOString()] gave. *)
Definition fetch_response (ev : Event) : option (Outcome HttpResponse) :=
  match ev with
  | Ev c r =>
    match c return Response c → option (Outcome HttpResponse) with
    | Fetch _ _ => λ r, Some r
    | _ => λ _, None
    end r
  end.

Definition clock_reading (ev : Event) : option Date :=
  match ev with
  | Ev c r =>
    match c return Response c → option Date with
    | Dayjs => λ d, Some d
    | _ => λ _, None
    end r
  end.

Definition uuid_given (ev : Event) : option string :=
  match ev with
  | Ev c r =>
    match c return Response c → option string with
    | Uuid_v4 => λ s, Some s
    | _ => λ _, None
    end r
  end.

Definition timestamp_given (ev : Event) : option string :=
  match ev with
  | Ev c r =>
    match c return Response c → option string with
    | Date_toISOString => λ s, Some s
    | _ => λ _, None
    end r
  end.

(** The data of a creation. *)
Definition created_chat (c : Call) : option (URI * ChatShape) :=
  match c with
  | CreateChatDocument uri _ data => Some (uri, data)
  | _ => None
  end.

Definition created_authorizations (c : Call) : option (URI * list Authorization) :=
  match c with
  | CreateAuthorizationDocument uri _ data => Some (uri, data)
  | _ => None
  end.

(** The URIs that the chat updates of a trace were aimed at. *)
Definition update_target (c : Call) : option URI :=
  match c with
  | UpdateChatDocument uri _ _ => Some uri
  | _ => None
  end.

(** ** A pod

    Modelled from the spec: the document mutation service of
    [./useRdfDocument] ([create(uri, data)], [update(uri, subject,
    transformFn)] as a read-modify-write of the document at [uri],
    [delete(uri)], each ending in ok or error and never retried), the
    authenticated fetch with the [Link] header of its response, the
    identifier generator and the clock. None of them is part of this file;
    the hooks above do not depend on this model. Where the spec is silent
    the pod takes the plain course: one subject per document, and a
    document that is not there can be neither updated nor deleted. *)
Inductive Document : Type :=
| ChatDocument (c : ChatShape)
| ActivityDocument (a : MessageActivity)
| AuthorizationDocument (l : list Authorization)
| TypeIndexDocument (x : PrivateTypeIndex).

Record Pod : Type := {
  documents : gmap URI Document;
  link_headers : gmap URI string;
  (** requests to these fail in transport *)
  unreachable : gset URI;
  uuids : nat;
  today : Date;
  now : string
}.

Definition put (uri : URI) (d : Document) (w : Pod) : Pod :=
  {| documents := <[uri := d]> (documents w); link_headers := link_headers w;
     unreachable := unreachable w; uuids := uuids w;
     today := today w; now := now w |}.

Definition remove (uri : URI) (w : Pod) : Pod :=
  {| documents := delete uri (documents w); link_headers := link_headers w;
     unreachable := unreachable w; uuids := uuids w;
     today := today w; now := now w |}.

Definition bump (w : Pod) : Pod :=
  {| documents := documents w; link_headers := link_headers w;
     unreachable := unreachable w; uuids := S (uuids w);
     today := today w; now := now w |}.

Definition fresh (w : Pod) : string := "uuid-" +:+ decimal (uuids w).

Definition failed_to_fetch : Exn := Error "Failed to fetch".
Definition not_found : Exn := Error "Not Found".

(** A POST to a container makes a new document under it; otherwise the
    document is written at [uri]. *)
Definition create (uri : URI) (method : option string) (d : Document) (w : Pod)
    : Outcome unit * Pod :=
  if bool_decide (uri ∈ unreachable w) then (Thrown failed_to_fetch, w)
  else if bool_decide (method = Some "POST")
       then (Returned (), put (uri +:+ fresh w) d (bump w))
       else (Returned (), put uri d w).

Definition pod : Handler Pod :=
  λ c w,
    match c return Response c * Pod with
    | CreateChatDocument uri m data => create uri m (ChatDocument data) w
    | CreateActivityDocument uri m data => create uri m (ActivityDocument data) w
    | CreateAuthorizationDocument uri m data =>
      create uri m (AuthorizationDocument data) w
    | UpdateChatDocument uri _ transform =>
      if bool_decide (uri ∈ unreachable w) then (Thrown failed_to_fetch, w)
      else
        match documents w !! uri with
        | Some (ChatDocument ldo) =>
          match transform ldo with
          | (Returned _, ldo') => (Returned (), put uri (ChatDocument ldo') w)
          | (Thrown e, _) => (Thrown e, w)
          end
        | _ => (Thrown not_found, w)
        end
    | UpdatePrivateTypeIndex uri _ transform =>
      if bool_decide (uri ∈ unreachable w) then (Thrown failed_to_fetch, w)
      else
        match documents w !! uri with
        | Some (TypeIndexDocument ldo) =>
          match transform (fresh w) ldo with
          | (Returned _, ldo') =>
            (Returned (), put uri (TypeIndexDocument ldo') (bump w))
          | (Thrown e, _) => (Thrown e, w)
          end
        | _ => (Thrown not_found, w)
        end
    | DeleteRdfDocument uri =>
      if bool_decide (uri ∈ unreachable w) then (Thrown failed_to_fetch, w)
      else
        match documents w !! uri with
        | Some _ => (Returned (), remove uri w)
        | None => (Thrown not_found, w)
        end
    | Fetch uri _ =>
      if bool_decide (uri ∈ unreachable w) then (Thrown failed_to_fetch, w)
      else (Returned {| link_header := link_headers w !! uri |}, w)
    | Uuid_v4 => (fresh w, bump w)
    | Dayjs => (today w, w)
    | Date_toISOString => (now w, w)
    end.

(** ** Sample data *)

Definition alice : URI := "https://alice.example/profile/card#me".
Definition bob : URI := "https://bob.example/profile/card#me".
Definition carol : URI := "https://carol.example/profile/card#me".
Definition alice_chat : URI := "https://alice.example/hospex/messages/a1/index.ttl#this".
Definition bob_chat : URI := "https://bob.example/hospex/messages/b1/index.ttl#this".
Definition bob_notification : URI := "https://bob.example/inbox/n1".

Definition entry (who : URI) (refs : option (list NodeRef)) : ChatParticipationShape :=
  {| part_id := "#p"; dtstart := "2023-05-01T10:00:00.000Z";
     participant := Some (AtId who); references := refs |}.

Definition sample_chat (ps : option (list ChatParticipationShape)) : ChatShape :=
  {| chat_id := bob_chat; chat_type := AtId "LongChat"; author := AtId bob;
     created2 := "2023-05-01T10:00:00.000Z"; title := "Hospex chat channel";
     participation := ps; message := None |}.

(** The part of a URI up to and including its last slash. *)
Fixpoint upto_last_slash (s : string) : string :=
  match s with
  | EmptyString => EmptyString
  | String c s' => if has_slash s then String c (upto_last_slash s') else EmptyString
  end.

(** Stand-ins for the imports: the namespace constants of the ShEx
    prefixes, and a link header read as the URL of its only relation,
    [acl]. *)
Definition sample_imports : Imports :=
  {| getContainer := upto_last_slash;
     meeting_LongChat := "http://www.w3.org/ns/pim/meeting#LongChat";
     acl_Read := "http://www.w3.org/ns/auth/acl#Read";
     acl_Write := "http://www.w3.org/ns/auth/acl#Write";
     acl_Control := "http://www.w3.org/ns/auth/acl#Control";
     publicTypeIndex := "http://www.w3.org/ns/solid/terms#publicTypeIndex";
     parseLinkHeader := λ h, (λ u, {| acl := Some {| url := u |} |}) <$> h |}.

Definition sample_pod (docs : gmap URI Document) : Pod :=
  {| documents := docs; link_headers := ∅; unreachable := ∅; uuids := 0;
     today := {| year := 2023; month := 5; day := 1 |};
     now := "2023-05-01T10:00:00.000Z" |}.

Definition offline_pod (docs : gmap URI Document) (down : gset URI) : Pod :=
  {| documents := docs; link_headers := ∅; unreachable := down; uuids := 0;
     today := {| year := 2023; month := 5; day := 1 |};
     now := "2023-05-01T10:00:00.000Z" |}.

(** A chat with three entries, none of them for [alice]. *)
Definition crowded_chat : ChatShape :=
  sample_chat (Some [entry bob None; entry carol None; entry bob None]).

Definition sample_activity : MessageActivity :=
  {| activity_id := EmptyString; activity_type := [AtId "Add"]; actor := AtId alice;
     context := AtId "https://www.pod-chat.com/LongChatMessage";
     object := AtId alice_chat; target := AtId alice_chat;
     updated := "2023-05-01T10:00:00.000Z" |}.

(** Bob's pod: his chat with alice, not yet linked, and her notification. *)
Definition bob_documents : gmap URI Document :=
  {[ bob_chat := ChatDocument
       (sample_chat (Some [entry bob None; entry alice (Some [])]));
     bob_notification := ActivityDocument sample_activity ]}.

(** The same pod with the three-entry chat in place of bob's. *)
Definition crowded_documents : gmap URI Document :=
  {[ bob_chat := ChatDocument crowded_chat;
     bob_notification := ActivityDocument sample_activity ]}.

(** Alice's pod before she opens a chat: an empty private type index, and
    the [Link] header her server will give for the first container made. *)
Definition alice_hospex : URI := "https://alice.example/hospex/".
Definition alice_index : URI := "https://alice.example/settings/privateTypeIndex.ttl".
Definition alice_container : URI := "https://alice.example/hospex/messages/uuid-0/".

Definition alice_pod : Pod :=
  {| documents :=
       {[ alice_index := TypeIndexDocument
            {| index_id := alice_index; index_references := None |} ]};
     link_headers :=
       {[ alice_container := "https://alice.example/hospex/messages/uuid-0/.acl" ]};
     unreachable := ∅; uuids := 0;
     today := {| year := 2023; month := 5; day := 1 |};
     now := "2023-05-01T10:00:00.000Z" |}.

Definition alice_created : CreatedChat :=
  {| chatContainer := alice_container;
     chatFile := "https://alice.example/hospex/messages/uuid-0/index.ttl";
     chatId := "https://alice.example/hospex/messages/uuid-0/index.ttl#this" |}.

(** A type index with a registration for another class, then one for
    LongChat that has no instance yet. *)
Definition other_registration : TypeRegistration :=
  {| reg_id := "#r1"; reg_type := AtId "TypeRegistration";
     forClass := [AtId "http://schema.org/Person"]; instance := Some [] |}.

Definition chat_registration (insts : option (list NodeRef)) : TypeRegistration :=
  {| reg_id := "#r2"; reg_type := AtId "TypeRegistration";
     forClass := [AtId "http://www.w3.org/ns/pim/meeting#LongChat"];
     instance := insts |}.

Definition sample_index (rs : option (list TypeRegistration)) : PrivateTypeIndex :=
  {| index_id := alice_index; index_references := rs |}.

(** Bob's pod on the first of May, with the day's log document. *)
Definition bob_log : URI := "https://bob.example/hospex/messages/b1/2023/05/01/chat.ttl".

Definition bob_log_documents : gmap URI Document :=
  {[ bob_log := ChatDocument (sample_chat None) ]}.

Definition may_first : Date := {| year := 2023; month := 5; day := 1 |}.

(** ** Further observers of a trace *)

(** The target, subject and transform of a chat update; of an update of
    the private type index; the target and method of a [fetch]. *)
Definition update_transform (c : Call)
    : option (URI * URI * Transform ChatShape) :=
  match c with
  | UpdateChatDocument uri subject transform => Some (uri, subject, transform)
  | _ => None
  end.

Definition index_update (c : Call)
    : option (URI * URI * (string → Transform PrivateTypeIndex)) :=
  match c with
  | UpdatePrivateTypeIndex uri subject transform => Some (uri, subject, transform)
  | _ => None
  end.

Definition fetch_target (c : Call) : option (URI * string) :=
  match c with
  | Fetch uri method => Some (uri, method)
  | _ => None
  end.

(** The error of a call that was rejected. *)
Definition rejected (A : Type) (r : Outcome A) : option Exn :=
  match r with
  | Returned _ => None
  | Thrown e => Some e
  end.

Definition rejection (ev : Event) : option Exn :=
  match ev with
  | Ev c r =>
    match c return Response c → option Exn with
    | CreateChatDocument _ _ _ | CreateActivityDocument _ _ _
    | CreateAuthorizationDocument _ _ _ | UpdateChatDocument _ _ _
    | UpdatePrivateTypeIndex _ _ _ | DeleteRdfDocument _ => rejected unit
    | Fetch _ _ => rejected HttpResponse
    | _ => λ _, None
    end r
  end.

(** The kind of a call, without its arguments. *)
Inductive Step : Type :=
| StepCreateChat | StepCreateActivity | StepCreateAuthorization
| StepUpdateChat | StepUpdateTypeIndex | StepDelete | StepFetch
| StepUuid | StepDayjs | StepTimestamp.

Definition step (c : Call) : Step :=
  match c with
  | CreateChatDocument _ _ _ => StepCreateChat
  | CreateActivityDocument _ _ _ => StepCreateActivity
  | CreateAuthorizationDocument _ _ _ => StepCreateAuthorization
  | UpdateChatDocument _ _ _ => StepUpdateChat
  | UpdatePrivateTypeIndex _ _ _ => StepUpdateTypeIndex
  | DeleteRdfDocument _ => StepDelete
  | Fetch _ _ => StepFetch
  | Uuid_v4 => StepUuid
  | Dayjs => StepDayjs
  | Date_toISOString => StepTimestamp
  end.

(** The kind of a call to the store or the network; the draws of uuids
    and the readings of the clock are none. *)
Definition request_step (c : Call) : option Step :=
  match c with
  | Uuid_v4 | Dayjs | Date_toISOString => None
  | _ => Some (step c)
  end.

(** A run over midnight: the first [dayjs()] reads the day the state
    holds, the next one the day after; the store accepts every mutation
    and the server answers every request without a [Link] header. *)
Definition next_day (d : Date) : Date :=
  {| year := year d; month := month d; day := S (day d) |}.

Definition over_midnight : Handler Date :=
  λ c d,
    match c return Response c * Date with
    | CreateChatDocument _ _ _ | CreateActivityDocument _ _ _
    | CreateAuthorizationDocument _ _ _ | UpdateChatDocument _ _ _
    | UpdatePrivateTypeIndex _ _ _ | DeleteRdfDocument _ => (Returned (), d)
    | Fetch _ _ => (Returned {| link_header := None |}, d)
    | Uuid_v4 => ("uuid-0", d)
    | Dayjs => (d, next_day d)
    | Date_toISOString => ("2023-05-01T21:59:59.999Z", d)
    end.

Definition bob_log_next_day : URI :=
  "https://bob.example/hospex/messages/b1/2023/05/02/chat.ttl".

(** ** The Cypress command [createRandomAccount] (support commands, lines 60-88)

    The command draws one uuid, reads [Cypress.env('cssUrl')], queues one
    POST of the registration form and yields the account's configuration;
    the uuid and the environment value are its inputs here, the queued
    request and the configuration its result. *)
Record UserConfig : Type := {
  idp : string;
  podUrl : string;
  webId : string;
  username : string;
  password : string;
  email : string
}.

Record RegisterForm : Type := {
  form_createWebId : string;
  form_webId : string;
  form_register : string;
  form_createPod : string;
  form_podName : string;
  form_email : string;
  form_password : string;
  form_confirmPassword : string
}.

Record CyRequest : Type := {
  request_method : string;
  request_url : string;
  request_body : RegisterForm
}.

Definition createRandomAccount (cssUrl uuid : string) : CyRequest * UserConfig :=
  let username := "test-" +:+ uuid in
  let password := "12345" in
  let email := username +:+ "@example.org" in
  let config :=
    {| idp := cssUrl +:+ "/";
       podUrl := cssUrl +:+ "/" +:+ username +:+ "/";
       webId := cssUrl +:+ "/" +:+ username +:+ "/profile/card#me";
       username := username;
       password := password;
       email := email |} in
  let registerEndpoint := cssUrl +:+ "/idp/register/" in
  ({| request_method := "POST";
      request_url := registerEndpoint;
      request_body :=
        {| form_createWebId := "on";
           form_webId := EmptyString;
           form_register := "on";
           form_createPod := "on";
           form_podName := username;
           form_email := email;
           form_password := password;
           form_confirmPassword := password |} |},
   config).

(** Alice's pod when her server answers the HEAD request with an [acl]
    link whose URL is empty. *)
Definition alice_pod_empty_link : Pod :=
  {| documents := documents alice_pod;
     link_headers := {[ alice_container := EmptyString ]};
     unreachable := ∅; uuids := 0;
     today := {| year := 2023; month := 5; day := 1 |};
     now := "2023-05-01T10:00:00.000Z" |}.

(** * Properties *)

Example process_links :
  processTransform alice_chat alice
    (sample_chat (Some [entry bob None; entry alice (Some [])]))
  = (Returned (),
     sample_chat (Some [entry bob None; entry alice (Some [AtId alice_chat])])).
Proof. vm_compute. reflexivity. Qed.

Example process_three :
  processTransform alice_chat alice
    (sample_chat (Some [entry bob None; entry carol None; entry alice None]))
  = (Thrown too_much_participation,
     sample_chat (Some [entry bob None; entry carol None; entry alice None])).
Proof. vm_compute. reflexivity. Qed.

Example format_example :
  format_YYYY_MM_DD {| year := 2023; month := 5; day := 1 |} = "2023/05/01".
Proof. vm_compute. reflexivity. Qed.

Example container_example :
  upto_last_slash alice_chat = "https://alice.example/hospex/messages/a1/".
Proof. vm_compute. reflexivity. Qed.

(** ** The pod *)

(** A mutation that the pod rejects leaves the pod as it was. *)
Lemma pod_update_chat_rejected (uri subject : URI) (t : Transform ChatShape)
    (p : Pod) (e : Exn) :
  (pod (UpdateChatDocument uri subject t) p).1 = Thrown e →
  (pod (UpdateChatDocument uri subject t) p).2 = p.
Proof.
  simpl. case_bool_decide; [done|].
  destruct (documents p !! uri) as [[ldo| | |]|]; try done.
  by destruct (t ldo) as [[[]|e'] ldo'].
Qed.

(** The pod rejects an update whose transform throws, with the error of
    the transform. *)
Lemma pod_update_chat_throws (uri subject : URI) (t : Transform ChatShape)
    (p : Pod) (ldo : ChatShape) (e : Exn) :
  uri ∉ unreachable p → documents p !! uri = Some (ChatDocument ldo) →
  (t ldo).1 = Thrown e →
  pod (UpdateChatDocument uri subject t) p = (Thrown e, p).
Proof.
  intros Hup Hdoc Ht. simpl. rewrite bool_decide_eq_false_2 by done.
  rewrite Hdoc. destruct (t ldo) as [[[]|e'] ldo']; simpl in *; congruence.
Qed.

(** On the pod, a run of [useProcessNotification] whose transform throws
    makes the one call, throws the error of the transform, and leaves the
    pod as it was. *)
Lemma pod_process_throws (p : Pod) (notificationId chat otherChat otherPerson : URI)
    (ldo : ChatShape) (e : Exn) :
  chat ∉ unreachable p → documents p !! chat = Some (ChatDocument ldo) →
  (processTransform otherChat otherPerson ldo).1 = Thrown e →
  run pod (useProcessNotification notificationId chat otherChat otherPerson) p
  = (Thrown e,
     [Ev (UpdateChatDocument chat chat (processTransform otherChat otherPerson))
         (Thrown e)],
     p).
Proof.
  intros Hup Hdoc Ht. cbn [run useProcessNotification].
  by rewrite (pod_update_chat_throws _ _ _ _ ldo e).
Qed.

(** ** The chat transform of [useProcessNotification] *)

Lemma has_references_true p :
  has_references p = true ↔ ∃ r rs, references p = Some (r :: rs).
Proof.
  unfold has_references. destruct (references p) as [[|r rs]|]; simpl.
  - split; [done | by intros (? & ? & ?)].
  - split; [eauto | done].
  - split; [done | by intros (? & ? & ?)].
Qed.

Lemma has_references_false p :
  has_references p = false ↔ references p = None ∨ references p = Some [].
Proof.
  unfold has_references. destruct (references p) as [[|r rs]|]; simpl.
  - split; [auto | done].
  - split; [done | by intros [?|?]].
  - split; [auto | done].
Qed.

(** The entry that [find] returns is still the one it returns once its
    references are assigned. *)
Lemma list_find_set_references op ps i p rs :
  list_find (λ p, participant_id p = Some op) ps = Some (i, p) →
  list_find (λ p, participant_id p = Some op) (<[i := set_references rs p]> ps)
  = Some (i, set_references rs p).
Proof.
  intros (Hi & Hp & Hleast)%list_find_Some. apply list_find_Some.
  split_and!.
  - apply list_lookup_insert_eq. by eapply lookup_lt_Some.
  - done.
  - intros j y Hj Hlt. rewrite list_lookup_insert_ne in Hj by lia. eauto.
Qed.

(** The outcome of the transform, guard by guard. *)
Lemma processTransform_no_participation oc op ldo :
  participation ldo = None →
  processTransform oc op ldo = (Thrown no_participation, ldo).
Proof. intros H. unfold processTransform. by rewrite H. Qed.

Lemma processTransform_too_much oc op ldo ps :
  participation ldo = Some ps → 2 < length ps →
  processTransform oc op ldo = (Thrown too_much_participation, ldo).
Proof.
  intros H Hlen. unfold processTransform. rewrite H.
  by rewrite bool_decide_eq_true_2.
Qed.

Lemma processTransform_not_found oc op ldo ps :
  participation ldo = Some ps → length ps ≤ 2 →
  list_find (λ p, participant_id p = Some op) ps = None →
  processTransform oc op ldo = (Thrown participation_not_found, ldo).
Proof.
  intros H Hlen Hfind. unfold processTransform. rewrite H.
  rewrite bool_decide_eq_false_2 by lia. by rewrite Hfind.
Qed.

Lemma processTransform_already oc op ldo ps i p :
  participation ldo = Some ps → length ps ≤ 2 →
  list_find (λ p, participant_id p = Some op) ps = Some (i, p) →
  has_references p = true →
  processTransform oc op ldo = (Thrown already_references, ldo).
Proof.
  intros H Hlen Hfind Hrefs. unfold processTransform. rewrite H.
  rewrite bool_decide_eq_false_2 by lia. by rewrite Hfind, Hrefs.
Qed.

Lemma processTransform_links oc op ldo ps i p :
  participation ldo = Some ps → length ps ≤ 2 →
  list_find (λ p, participant_id p = Some op) ps = Some (i, p) →
  has_references p = false →
  processTransform oc op ldo
  = (Returned (),
     set_participation
       (Some (<[i := set_references (Some [AtId oc]) p]> ps)) ldo).
Proof.
  intros H Hlen Hfind Hrefs. unfold processTransform. rewrite H.
  rewrite bool_decide_eq_false_2 by lia. by rewrite Hfind, Hrefs.
Qed.


(** C1. The entry that [find] locates for [otherPerson] is linked at most
    once: when it already holds a reference the transform throws the
    "already references" error with the chat object exactly as it was
    given; and a link that succeeds starts from an entry without
    references, leaves it with the one reference [otherChat], and makes
    every later attempt on the resulting chat throw that error, again
    without touching the chat. On the pod, the rejected run makes no call
    but the update and leaves every document as it was. *)
Theorem references_linked_at_most_once (otherChat otherPerson : URI) (ldo : ChatShape) :
  (∀ ps i p,
     participation ldo = Some ps → length ps ≤ 2 →
     list_find (λ p, participant_id p = Some otherPerson) ps = Some (i, p) →
     (∃ r rs, references p = Some (r :: rs)) →
     processTransform otherChat otherPerson ldo = (Thrown already_references, ldo))
  ∧ (∀ ldo',
       processTransform otherChat otherPerson ldo = (Returned (), ldo') →
       (∃ ps i p,
          participation ldo = Some ps ∧
          list_find (λ p, participant_id p = Some otherPerson) ps = Some (i, p) ∧
          (references p = None ∨ references p = Some []) ∧
          ldo' = set_participation
                   (Some (<[i := set_references (Some [AtId otherChat]) p]> ps)) ldo)
       ∧ ∀ otherChat',
           processTransform otherChat' otherPerson ldo'
           = (Thrown already_references, ldo'))
  ∧ (∀ (pod0 : Pod) (notificationId chat : URI) ps i p,
       chat ∉ unreachable pod0 →
       documents pod0 !! chat = Some (ChatDocument ldo) →
       participation ldo = Some ps → length ps ≤ 2 →
       list_find (λ p, participant_id p = Some otherPerson) ps = Some (i, p) →
       (∃ r rs, references p = Some (r :: rs)) →
       run pod (useProcessNotification notificationId chat otherChat
                  otherPerson) pod0
       = (Thrown already_references,
          [Ev (UpdateChatDocument chat chat
                 (processTransform otherChat otherPerson))
              (Thrown already_references)],
          pod0)).
Proof.
  split; [|split].
  - intros ps i p Hps Hlen Hfind Hrefs.
    eapply processTransform_already; eauto. by apply has_references_true.
  - intros ldo' Hrun. unfold processTransform in Hrun.
    destruct (participation ldo) as [ps|] eqn:Hps; [|done].
    case_bool_decide as Hlen; [done|].
    destruct (list_find _ ps) as [[i p]|] eqn:Hfind; [|done].
    destruct (has_references p) eqn:Hrefs; [done|].
    injection Hrun as <-. split.
    + exists ps, i, p. split_and!; try done. by apply has_references_false.
    + intros otherChat'.
      eapply processTransform_already.
      * done.
      * rewrite length_insert. lia.
      * by apply list_find_set_references.
      * done.
  - intros pod0 notificationId chat ps i p Hup Hdoc Hps Hlen Hfind Hrefs.
    apply (pod_process_throws _ _ _ _ _ ldo); [done..|].
    erewrite processTransform_already; eauto. by apply has_references_true.
Qed.

Lemma references_linked_at_most_once_witness :
  processTransform alice_chat alice
    (sample_chat (Some [entry bob None; entry alice (Some [AtId alice_chat])]))
  = (Thrown already_references,
     sample_chat (Some [entry bob None; entry alice (Some [AtId alice_chat])])).
Proof.
  refine (proj1 (references_linked_at_most_once alice_chat alice _)
            [entry bob None; entry alice (Some [AtId alice_chat])] 1
            (entry alice (Some [AtId alice_chat])) _ _ _ _).
  - reflexivity.
  - simpl. lia.
  - vm_compute. reflexivity.
  - eexists _, _. reflexivity.
Defined.

(** C3, as stated, fails in its third equivalence: a chat whose three
    entries are all for other people has no entry for [alice], and the
    transform throws "too much participation", not "not found". *)
Lemma not_found_iff_no_entry_fails :
  ¬ ((processTransform alice_chat alice crowded_chat).1
       = Thrown participation_not_found
     ↔ Forall (λ p, participant_id p ≠ Some alice)
         (default [] (participation crowded_chat))).
Proof.
  intros [_ H].
  assert (Hno : Forall (λ p, participant_id p ≠ Some alice)
                  (default [] (participation crowded_chat))).
  { simpl. repeat constructor; discriminate. }
  specialize (H Hno). vm_compute in H. discriminate H.
Qed.

(** The transform takes exactly one of its five paths. *)
Lemma processTransform_inv oc op ldo :
  (participation ldo = None ∧
   processTransform oc op ldo = (Thrown no_participation, ldo))
  ∨ (∃ ps, participation ldo = Some ps ∧ 2 < length ps ∧
       processTransform oc op ldo = (Thrown too_much_participation, ldo))
  ∨ (∃ ps, participation ldo = Some ps ∧ length ps ≤ 2 ∧
       list_find (λ p, participant_id p = Some op) ps = None ∧
       processTransform oc op ldo = (Thrown participation_not_found, ldo))
  ∨ (∃ ps i p, participation ldo = Some ps ∧ length ps ≤ 2 ∧
       list_find (λ p, participant_id p = Some op) ps = Some (i, p) ∧
       has_references p = true ∧
       processTransform oc op ldo = (Thrown already_references, ldo))
  ∨ (∃ ps i p, participation ldo = Some ps ∧ length ps ≤ 2 ∧
       list_find (λ p, participant_id p = Some op) ps = Some (i, p) ∧
       has_references p = false ∧
       processTransform oc op ldo
       = (Returned (),
          set_participation
            (Some (<[i := set_references (Some [AtId oc]) p]> ps)) ldo)).
Proof.
  destruct (participation ldo) as [ps|] eqn:Hps.
  2: { left. eauto using processTransform_no_participation. }
  right. destruct (decide (2 < length ps)).
  { left. eauto using processTransform_too_much. }
  right. assert (length ps ≤ 2) by lia.
  destruct (list_find (λ p, participant_id p = Some op) ps) as [[i p]|] eqn:Hf.
  2: { left. eauto 6 using processTransform_not_found. }
  right. destruct (has_references p) eqn:Hr.
  - left. eauto 10 using processTransform_already.
  - right. eauto 10 using processTransform_links.
Qed.

(** Two readings of the same property of the same chat agree. *)
Ltac same_data :=
  repeat first
    [ match goal with
      | H : ∃ _, _ |- _ => destruct H
      | H : _ ∧ _ |- _ => destruct H
      | H1 : participation ?l = _, H2 : participation ?l = _ |- _ =>
        rewrite H1 in H2
      | H1 : list_find ?P ?l = _, H2 : list_find ?P ?l = _ |- _ =>
        rewrite H1 in H2
      | H : Forall (λ p, participant_id p ≠ Some ?op) ?l |- _ =>
        apply (proj2 (list_find_None (λ p, participant_id p = Some op) l)) in H
      | H : _ ∨ _ |- _ => apply (proj2 (has_references_false _)) in H
      end
    | progress simplify_eq ].

(** An equivalence between a path that was not taken and data the chat
    does not have. *)
Ltac impossible :=
  intros; split; [discriminate | intros; same_data; first [lia | congruence]].

(** C3, amended. The guards of the transform are tried in order. It throws
    "no participation" exactly when the chat has no participation list;
    "too much participation" exactly when the list has more than two
    entries; "other person's participation not found" exactly when the
    list exists, has at most two entries and none of them is for
    [otherPerson]; it returns exactly when the first entry for
    [otherPerson] of such a list holds no reference, and then that entry's
    references are [[otherChat]] and nothing else has changed; and a chat
    with more than two entries is left as it was, by the transform and, on
    the pod, in the store. *)
Theorem processTransform_guards (otherChat otherPerson : URI) (ldo : ChatShape) :
  ((processTransform otherChat otherPerson ldo).1 = Thrown no_participation
     ↔ participation ldo = None)
  ∧ ((processTransform otherChat otherPerson ldo).1 = Thrown too_much_participation
     ↔ ∃ ps, participation ldo = Some ps ∧ 2 < length ps)
  ∧ ((processTransform otherChat otherPerson ldo).1 = Thrown participation_not_found
     ↔ ∃ ps, participation ldo = Some ps ∧ length ps ≤ 2 ∧
             Forall (λ p, participant_id p ≠ Some otherPerson) ps)
  ∧ (∀ ldo',
       processTransform otherChat otherPerson ldo = (Returned (), ldo')
       ↔ ∃ ps i p,
           participation ldo = Some ps ∧ length ps ≤ 2 ∧
           list_find (λ p, participant_id p = Some otherPerson) ps = Some (i, p) ∧
           (references p = None ∨ references p = Some []) ∧
           ldo' = set_participation
                    (Some (<[i := set_references (Some [AtId otherChat]) p]> ps)) ldo)
  ∧ (∀ ps, participation ldo = Some ps → 2 < length ps →
       (processTransform otherChat otherPerson ldo).2 = ldo)
  ∧ (∀ (pod0 : Pod) (notificationId chat : URI) ps,
       chat ∉ unreachable pod0 →
       documents pod0 !! chat = Some (ChatDocument ldo) →
       participation ldo = Some ps → 2 < length ps →
       final (run pod (useProcessNotification notificationId chat otherChat
                         otherPerson) pod0) = pod0).
Proof.
  assert (Hpod : ∀ (pod0 : Pod) (notificationId chat : URI) ps,
            chat ∉ unreachable pod0 →
            documents pod0 !! chat = Some (ChatDocument ldo) →
            participation ldo = Some ps → 2 < length ps →
            final (run pod (useProcessNotification notificationId chat
                              otherChat otherPerson) pod0) = pod0).
  { intros pod0 notificationId chat ps Hup Hdoc Hps Hlen.
    rewrite (pod_process_throws _ _ _ _ _ ldo too_much_participation);
      [done..|].
    by erewrite processTransform_too_much. }
  destruct (processTransform_inv otherChat otherPerson ldo)
    as [(Hps & Hrun) | [(ps & Hps & Hlen & Hrun) |
        [(ps & Hps & Hlen & Hfind & Hrun) |
         [(ps & i & p & Hps & Hlen & Hfind & Hrefs & Hrun) |
          (ps & i & p & Hps & Hlen & Hfind & Hrefs & Hrun)]]]];
    rewrite Hrun; cbn [fst snd].
  - split_and!;
      [done | impossible | impossible | impossible | intros; congruence
      | exact Hpod].
  - split_and!;
      [impossible | by split; eauto | impossible | impossible | done
      | exact Hpod].
  - split_and!; [impossible | impossible | | impossible | done | exact Hpod].
    split; [intros _ | done]. exists ps. by rewrite <- list_find_None.
  - split_and!;
      [impossible | impossible | impossible | impossible | done | exact Hpod].
  - split_and!;
      [impossible | impossible | impossible | | intros; same_data; lia
      | exact Hpod].
    intros ldo'. split.
    + intros [= <-]. exists ps, i, p. by rewrite <- has_references_false.
    + intros (? & ? & ? & ? & ? & ? & ? & ->). by same_data.
Qed.

Lemma processTransform_guards_witness :
  (processTransform alice_chat alice crowded_chat).2 = crowded_chat.
Proof.
  refine (proj1 (proj2 (proj2 (proj2 (proj2
            (processTransform_guards alice_chat alice crowded_chat)))))
            [entry bob None; entry carol None; entry bob None] _ _).
  - reflexivity.
  - simpl. lia.
Defined.

(** C10. For the entry that [find] locates, the "already references" error
    is thrown exactly when the [references] property is present and holds
    at least one element; with [references] absent, or the empty array,
    the transform returns and the entry's references are [[otherChat]];
    and the chat with that entry's [references] removed and the chat with
    it emptied are transformed alike, outcome and resulting chat. *)
Theorem absent_references_as_empty (otherChat otherPerson : URI)
    (ldo : ChatShape) (ps : list ChatParticipationShape) (i : nat)
    (p : ChatParticipationShape) :
  participation ldo = Some ps → length ps ≤ 2 →
  list_find (λ p, participant_id p = Some otherPerson) ps = Some (i, p) →
  ((processTransform otherChat otherPerson ldo).1 = Thrown already_references
     ↔ ∃ r rs, references p = Some (r :: rs))
  ∧ (references p = None ∨ references p = Some [] →
     processTransform otherChat otherPerson ldo
     = (Returned (),
        set_participation
          (Some (<[i := set_references (Some [AtId otherChat]) p]> ps)) ldo))
  ∧ processTransform otherChat otherPerson
      (set_participation (Some (<[i := set_references None p]> ps)) ldo)
    = processTransform otherChat otherPerson
        (set_participation (Some (<[i := set_references (Some []) p]> ps)) ldo).
Proof.
  intros Hps Hlen Hfind. split_and!.
  - rewrite <- has_references_true. destruct (has_references p) eqn:Hrefs.
    + by rewrite (processTransform_already _ _ _ ps i p).
    + by rewrite (processTransform_links _ _ _ ps i p).
  - intros Hrefs%has_references_false. by apply processTransform_links.
  - assert (Hlinks : ∀ rs, has_references (set_references rs p) = false →
      processTransform otherChat otherPerson
        (set_participation (Some (<[i := set_references rs p]> ps)) ldo)
      = (Returned (),
         set_participation
           (Some (<[i := set_references (Some [AtId otherChat]) p]> ps)) ldo)).
    { intros rs Hrs.
      rewrite (processTransform_links _ _ _ (<[i := set_references rs p]> ps)
                 i (set_references rs p));
        [| done | by rewrite length_insert
         | by apply list_find_set_references | done].
      by rewrite list_insert_insert_eq. }
    by rewrite !Hlinks.
Qed.

Lemma absent_references_as_empty_witness :
  processTransform alice_chat alice
    (sample_chat (Some [entry bob None; entry alice None]))
  = (Returned (),
     sample_chat (Some [entry bob None; entry alice (Some [AtId alice_chat])])).
Proof.
  refine (proj1 (proj2 (absent_references_as_empty alice_chat alice
            (sample_chat (Some [entry bob None; entry alice None]))
            [entry bob None; entry alice None] 1 (entry alice None) _ _ _)) _).
  - reflexivity.
  - simpl. lia.
  - vm_compute. reflexivity.
  - left. reflexivity.
Defined.

(** ** Runs of the hooks *)

(** C2. In every run of [useProcessNotification], whoever answers the
    calls: if the chat update is rejected, with whatever error, the hook
    throws that error having made no other call, so no delete; a delete in
    the trace is the delete of the notification and comes after an update
    that resolved; and on the pod, after a rejected update the
    notification document is still there. *)
Theorem delete_only_after_update {W : Type} (h : Handler W) (w : W)
    (notificationId chat otherChat otherPerson : URI) :
  let update := UpdateChatDocument chat chat (processTransform otherChat otherPerson) in
  let r := run h (useProcessNotification notificationId chat otherChat otherPerson) w in
  (∀ e, (h update w).1 = Thrown e →
     r = (Thrown e, [Ev update (Thrown e)], (h update w).2)
     ∧ ∀ c, c ∈ calls (trace r) → is_delete c = false)
  ∧ (∀ i c, calls (trace r) !! i = Some c → is_delete c = true →
       i = 1 ∧ c = DeleteRdfDocument notificationId ∧
       ∃ u, trace r !! 0 = Some (Ev update (Returned u)))
  ∧ (∀ (p : Pod) e d,
       (pod update p).1 = Thrown e →
       documents p !! notificationId = Some d →
       let r' := run pod (useProcessNotification notificationId chat
                            otherChat otherPerson) p in
       outcome r' = Thrown e ∧
       documents (final r') !! notificationId = Some d).
Proof.
  intros update r.
  assert (Hfail : ∀ (W' : Type) (h' : Handler W') (w' : W') e,
            (h' update w').1 = Thrown e →
            run h' (useProcessNotification notificationId chat otherChat
                      otherPerson) w'
            = (Thrown e, [Ev update (Thrown e)], (h' update w').2)).
  { intros W' h' w' e He. simpl. fold update.
    destruct (h' update w') as [o w1]. simpl in He. by subst o. }
  split_and!.
  - intros e He. subst r. rewrite (Hfail _ h w e He). split; [done|].
    intros c [->|[]%elem_of_nil]%elem_of_cons. done.
  - intros i c. subst r. simpl. fold update.
    destruct (h update w) as [[u|e] w1]; simpl.
    + destruct (h (DeleteRdfDocument notificationId) w1) as [[u'|e'] w2]; simpl;
        destruct i as [|[|i]]; simpl; intros [= <-]; try done; eauto.
    + destruct i as [|i]; simpl; [intros [= <-]; done | done].
  - intros p e d He Hd r'. subst r'. rewrite (Hfail _ pod p e He).
    split; [done|]. unfold final. cbn [snd]. unfold update in *.
    by rewrite (pod_update_chat_rejected _ _ _ _ e).
Qed.

Lemma delete_only_after_update_witness :
  let r := run pod (useProcessNotification bob_notification bob_chat
                      alice_chat alice) (sample_pod crowded_documents) in
  outcome r = Thrown too_much_participation ∧
  documents (final r) !! bob_notification = Some (ActivityDocument sample_activity).
Proof.
  refine (proj2 (proj2 (delete_only_after_update pod
            (sample_pod crowded_documents) bob_notification bob_chat
            alice_chat alice))
            (sample_pod crowded_documents) too_much_participation
            (ActivityDocument sample_activity) _ _).
  - vm_compute. reflexivity.
  - vm_compute. reflexivity.
Defined.

(** The scenario of the handshake on bob's pod: the link is written, then
    the notification is deleted; a second run finds the link and throws. *)
Example process_scenario :
  let r := run pod (useProcessNotification bob_notification bob_chat
                      alice_chat alice) (sample_pod bob_documents) in
  outcome r = Returned () ∧
  is_delete <$> calls (trace r) = [false; true] ∧
  documents (final r) !! bob_chat
    = Some (ChatDocument
              (sample_chat (Some [entry bob None;
                                  entry alice (Some [AtId alice_chat])]))) ∧
  documents (final r) !! bob_notification = None ∧
  outcome (run pod (useProcessNotification "https://bob.example/inbox/n2"
                      bob_chat alice_chat alice) (final r))
    = Thrown already_references.
Proof. vm_compute. done. Qed.

(** A transport failure on the chat: the update is rejected, nothing is
    deleted, the pod is as it was. *)
Example process_offline :
  let p := offline_pod bob_documents {[ bob_chat ]} in
  run pod (useProcessNotification bob_notification bob_chat alice_chat alice) p
  = (Thrown failed_to_fetch,
     [Ev (UpdateChatDocument bob_chat bob_chat (processTransform alice_chat alice))
         (Thrown failed_to_fetch)],
     p).
Proof. reflexivity. Qed.

(** C9. In every run of [useCreateMessageNotification] the hook makes one
    call and no other: the creation, by POST, at [inbox], of the activity
    of type Add with [senderId] as actor, [messageId] as object, [chatId]
    as target and the given [updated]; its outcome is the outcome of that
    creation. On the pod, when the inbox can be reached, the run adds that
    one document under the inbox and changes no other. *)
Theorem notification_created_by_post {W : Type} (h : Handler W) (w : W)
    (inbox senderId messageId chatId : URI) (updated : string) :
  let data :=
    {| activity_id := EmptyString; activity_type := [AtId "Add"];
       actor := AtId senderId;
       context := AtId "https://www.pod-chat.com/LongChatMessage";
       object := AtId messageId; target := AtId chatId;
       updated := updated |} in
  let post := CreateActivityDocument inbox (Some "POST") data in
  let r := run h (useCreateMessageNotification inbox senderId messageId
                    chatId updated) w in
  trace r = [Ev post (h post w).1]
  ∧ (∀ c, c ∈ calls (trace r) →
       is_create_activity c = true ∧ is_update c = false)
  ∧ outcome r = (h post w).1
  ∧ final r = (h post w).2
  ∧ (∀ p : Pod,
       inbox ∉ unreachable p →
       let r' := run pod (useCreateMessageNotification inbox senderId
                            messageId chatId updated) p in
       outcome r' = Returned () ∧
       documents (final r')
       = <[inbox +:+ fresh p := ActivityDocument data]> (documents p)).
Proof.
  intros data post r. subst r. cbn [run useCreateMessageNotification].
  fold data. fold post.
  split_and!.
  - by destruct (h post w) as [[[]|e] w1].
  - intros c. destruct (h post w) as [[[]|e] w1];
      by intros [->|[]%elem_of_nil]%elem_of_cons.
  - by destruct (h post w) as [[[]|e] w1].
  - by destruct (h post w) as [[[]|e] w1].
  - intros p Hp.
    assert (Hpost : pod post p
                    = (Returned (),
                       put (inbox +:+ fresh p) (ActivityDocument data) (bump p))).
    { unfold post, pod, create. by rewrite bool_decide_eq_false_2. }
    by rewrite Hpost.
Qed.

Lemma notification_created_by_post_witness :
  let r := run pod (useCreateMessageNotification "https://bob.example/inbox/"
                      alice alice_chat alice_chat "2023-05-01T10:00:00.000Z")
             (sample_pod ∅) in
  outcome r = Returned () ∧
  documents (final r)
  = {[ "https://bob.example/inbox/uuid-0" := ActivityDocument sample_activity ]}.
Proof.
  refine (proj2 (proj2 (proj2 (proj2
            (notification_created_by_post pod (sample_pod ∅)
               "https://bob.example/inbox/" alice alice_chat alice_chat
               "2023-05-01T10:00:00.000Z")))) (sample_pod ∅) _).
  vm_compute. discriminate.
Defined.

(** ** Runs of [useCreateChat] *)

(** One call of a run: name the answer and the state it leaves. *)
Ltac answer h :=
  match goal with
  | |- context [h ?c ?w] =>
    let r := fresh "r" in
    let w' := fresh "w" in
    destruct (h c w) as [r w']; cbn [run]
  end.

(** Follow a run to its end, along every way the calls can be answered. *)
Ltac explore h :=
  cbn [run];
  repeat first
    [ answer h
    | match goal with
      | |- context [run h (match ?r with Returned _ => _ | Thrown _ => _ end)] =>
        destruct r as [?|?]; cbn [run]
      | |- context [run h (match ?o with Some _ => _ | None => _ end)] =>
        destruct o as [?|] eqn:?; cbn [run]
      | |- context [run h (if ?b then _ else _)] =>
        destruct b eqn:?; cbn [run]
      end ].

(** After the last call: read the three parts of the run. *)
Ltac ran :=
  unfold outcome, trace, final, calls;
  cbn [fst snd fmap list_fmap ev_call omap list_omap
       created_chat created_authorizations].

(** Go through the members of an explicit list. *)
Ltac each H :=
  repeat (apply elem_of_cons in H as [H|H]); [.. | by apply elem_of_nil in H].

Section CreateChat.
Context {imports : Imports} {W : Type} (h : Handler W) (w : W).
Context (me otherPerson : URI) (otherChat : option URI).
Context (hospexContainer privateTypeIndex : URI).

(** C4. In every run of [useCreateChat]: if the HEAD request on the new
    container is answered and the parsed [Link] header has no [acl]
    relation, the hook throws; and no call of that run creates an
    authorization or updates the private type index. *)
Theorem no_acl_link_aborts :
  let r := run h (useCreateChat me otherPerson otherChat hospexContainer
                    privateTypeIndex) w in
  ∀ ev response,
    ev ∈ trace r → fetch_response ev = Some (Returned response) →
    parseLinkHeader (link_header response) ≫= acl = None →
    outcome r = Thrown no_wac_link
    ∧ ∀ c, c ∈ calls (trace r) →
        is_create_authorization c = false ∧ is_update_type_index c = false.
Proof.
  intros r ev response. subst r. unfold useCreateChat.
  explore h; ran; intros Hev Hfetch Hno.
  all: each Hev; subst ev; try discriminate Hfetch.
  all: injection Hfetch as ->.
  all: try match goal with
           | H : url <$> _ = Some _ |- _ => rewrite Hno in H; discriminate H
           end.
  all: split; [done|]; intros c Hc; each Hc; by subst c.
Qed.

(** C5, amended. Every run of [useCreateChat] asks for exactly one chat
    document to be created. Its type is LongChat, its author [me], its
    creation time the timestamp the clock gave, its title "Hospex chat
    channel", and it has exactly two participation entries: the first for
    [me], without references; the second for [otherPerson], whose
    references are [[otherChat]] when [otherChat] is given and is not the
    empty string, and the empty list when it is not given or is the empty
    string. *)
Theorem created_chat_document :
  let r := run h (useCreateChat me otherPerson otherChat hospexContainer
                    privateTypeIndex) w in
  ∃ uri data date p1 p2,
    omap created_chat (calls (trace r)) = [(uri, data)]
    ∧ omap timestamp_given (trace r) = [date]
    ∧ chat_type data = AtId "LongChat"
    ∧ author data = AtId me
    ∧ created2 data = date
    ∧ title data = "Hospex chat channel"
    ∧ participation data = Some [p1; p2]
    ∧ participant p1 = Some (AtId me)
    ∧ references p1 = None
    ∧ participant p2 = Some (AtId otherPerson)
    ∧ (∀ c, otherChat = Some c → c ≠ EmptyString → references p2 = Some [AtId c])
    ∧ (otherChat = None ∨ otherChat = Some EmptyString → references p2 = Some []).
Proof.
  intros r. subst r. unfold useCreateChat.
  explore h; ran; cbn [timestamp_given].
  all: do 5 eexists; split_and!; try reflexivity.
  all: cbn [references].
  all: try (intros c -> Hc; by destruct c).
  all: by intros [->| ->].
Qed.

(** C8. In every run of [useCreateChat] that returns, exactly one
    authorization document was created, on the [acl] URL that the parsed
    [Link] header of the HEAD response gave, and it holds exactly two
    authorizations: the first for [me] with Read, Write and Control, the
    second for [otherPerson] with Read only, both with [accessTo] and
    [default] the new chat container. *)
Theorem two_authorizations_created :
  let r := run h (useCreateChat me otherPerson otherChat hospexContainer
                    privateTypeIndex) w in
  ∀ created, outcome r = Returned created →
  ∃ response aclUri a1 a2,
    omap fetch_response (trace r) = [Returned response]
    ∧ url <$> (parseLinkHeader (link_header response) ≫= acl) = Some aclUri
    ∧ omap created_authorizations (calls (trace r)) = [(aclUri, [a1; a2])]
    ∧ agent a1 = [AtId me]
    ∧ mode a1 = [AtId acl_Read; AtId acl_Write; AtId acl_Control]
    ∧ accessTo a1 = [AtId (chatContainer created)]
    ∧ default_ a1 = AtId (chatContainer created)
    ∧ agent a2 = [AtId otherPerson]
    ∧ mode a2 = [AtId acl_Read]
    ∧ accessTo a2 = [AtId (chatContainer created)]
    ∧ default_ a2 = AtId (chatContainer created).
Proof.
  intros r created. subst r. unfold useCreateChat.
  explore h; ran; cbn [fetch_response]; intros Hret; try discriminate Hret.
  injection Hret as <-.
  do 4 eexists; split_and!; try reflexivity. done.
Qed.
End CreateChat.

Lemma no_acl_link_aborts_witness :
  let r := run pod (useCreateChat (imports := sample_imports) alice bob None
                      alice_hospex alice_index) (sample_pod ∅) in
  outcome r = Thrown no_wac_link
  ∧ ∀ c, c ∈ calls (trace r) →
      is_create_authorization c = false ∧ is_update_type_index c = false.
Proof.
  refine (no_acl_link_aborts (imports := sample_imports) pod (sample_pod ∅)
            alice bob None alice_hospex alice_index
            (Ev (Fetch alice_container "HEAD")
                (Returned {| link_header := None |}))
            {| link_header := None |} _ _ _).
  - apply list_elem_of_lookup. exists 5. vm_compute. reflexivity.
  - reflexivity.
  - reflexivity.
Defined.

(** C5, as stated, fails when [otherChat] is supplied as the empty string:
    the test [otherChat ? ... : []] takes it for absent, and the entry of
    [otherPerson] gets no reference, not a reference to the empty string. *)
Lemma empty_otherChat_not_referenced :
  let r := run pod (useCreateChat (imports := sample_imports) alice bob
                      (Some EmptyString) alice_hospex alice_index) alice_pod in
  ¬ ∃ uri data p1 p2,
      omap created_chat (calls (trace r)) = [(uri, data)]
      ∧ participation data = Some [p1; p2]
      ∧ references p2 = Some [AtId EmptyString].
Proof.
  intros r (uri & data & p1 & p2 & Hcreated & Hparts & Hrefs).
  vm_compute in Hcreated. injection Hcreated as <- <-.
  injection Hparts as <- <-. discriminate Hrefs.
Qed.

Lemma created_chat_document_witness :
  let r := run pod (useCreateChat (imports := sample_imports) alice bob
                      (Some bob_chat) alice_hospex alice_index) alice_pod in
  ∃ uri data p1 p2,
    omap created_chat (calls (trace r)) = [(uri, data)]
    ∧ participation data = Some [p1; p2]
    ∧ references p1 = None
    ∧ references p2 = Some [AtId bob_chat].
Proof.
  destruct (created_chat_document (imports := sample_imports) pod alice_pod
              alice bob (Some bob_chat) alice_hospex alice_index)
    as (uri & data & date & p1 & p2 & Hc & _ & _ & _ & _ & _ & Hp & _ & H1 & _ & H2 & _).
  exists uri, data, p1, p2. split_and!; try done.
  apply H2; [reflexivity | discriminate].
Defined.

Lemma two_authorizations_created_witness :
  let r := run pod (useCreateChat (imports := sample_imports) alice bob None
                      alice_hospex alice_index) alice_pod in
  outcome r = Returned alice_created
  ∧ ∃ a1 a2,
      omap created_authorizations (calls (trace r))
      = [("https://alice.example/hospex/messages/uuid-0/.acl", [a1; a2])]
      ∧ agent a1 = [AtId alice] ∧ length (mode a1) = 3
      ∧ agent a2 = [AtId bob] ∧ length (mode a2) = 1.
Proof.
  assert (Hret : outcome (run pod (useCreateChat (imports := sample_imports)
                   alice bob None alice_hospex alice_index) alice_pod)
                 = Returned alice_created).
  { vm_compute. reflexivity. }
  split; [exact Hret|].
  destruct (two_authorizations_created (imports := sample_imports) pod
              alice_pod alice bob None alice_hospex alice_index
              alice_created Hret)
    as (response & aclUri & a1 & a2 & Hf & Hurl & Hc & Ha1 & Hm1 & _ & _
        & Ha2 & Hm2 & _).
  vm_compute in Hf. injection Hf as <-.
  vm_compute in Hurl. injection Hurl as <-.
  exists a1, a2. rewrite Hm1, Hm2. by split_and!.
Defined.

(** The scenario of the handshake on alice's pod: a chat with bob and no
    [otherChat] is stored with two entries, neither holding a reference,
    next to its two authorizations, and is registered in the index. *)
Example establish_scenario :
  let r := run pod (useCreateChat (imports := sample_imports) alice bob None
                      alice_hospex alice_index) alice_pod in
  outcome r = Returned alice_created
  ∧ (∃ c, documents (final r) !! chatFile alice_created = Some (ChatDocument c)
          ∧ (λ p, (participant p, references p)) <$> default [] (participation c)
            = [(Some (AtId alice), None); (Some (AtId bob), Some [])])
  ∧ (∃ l, documents (final r) !! "https://alice.example/hospex/messages/uuid-0/.acl"
          = Some (AuthorizationDocument l) ∧ length l = 2)
  ∧ (∃ x, documents (final r) !! alice_index = Some (TypeIndexDocument x)
          ∧ (λ reg, (forClass reg, instance reg))
              <$> default [] (index_references x)
            = [([AtId "LongChat"], Some [AtId (chatId alice_created)])]).
Proof. vm_compute. split_and!; eauto. Qed.

(** ** The transform of the private type index *)

Section TypeIndex.
Context {imports : Imports}.

End TypeIndex.


Example typeIndexTransform_fresh :
  typeIndexTransform (imports := sample_imports) alice_chat "u"
    (sample_index None)
  = (Returned (),
     sample_index
       (Some [{| reg_id := "http://www.w3.org/ns/solid/terms#publicTypeIndex#u";
                 reg_type := AtId "TypeRegistration";
                 forClass := [AtId "LongChat"];
                 instance := Some [AtId alice_chat] |}])).
Proof. vm_compute. reflexivity. Qed.

(** ** The day's log document *)

Lemma append_String (c : ascii) (s t : string) :
  String c s +:+ t = String c (s +:+ t).
Proof. reflexivity. Qed.

Lemma append_assoc (s t u : string) : (s +:+ t) +:+ u = s +:+ t +:+ u.
Proof.
  induction s as [|c s IH]; [done|]. rewrite !append_String. by f_equal.
Qed.

(** Digits hold no slash, and zeros in front add none. *)
Lemma digits_no_slash (d : Decimal.uint) :
  has_slash (DecimalString.NilEmpty.string_of_uint d) = false.
Proof. induction d; done. Qed.

Lemma repeat_char_zero_no_slash (n : nat) (s : string) :
  has_slash s = false → has_slash (repeat_char "0" n s) = false.
Proof. intros Hs. induction n; done. Qed.

Lemma padStart_decimal_no_slash (width n : nat) :
  has_slash (padStart width (decimal n)) = false.
Proof. apply repeat_char_zero_no_slash, digits_no_slash. Qed.

(** A padded number is read back as the number. *)
Lemma repeat_char_zero_digits (n : nat) (d : Decimal.uint) :
  repeat_char "0" n (DecimalString.NilEmpty.string_of_uint d)
  = DecimalString.NilEmpty.string_of_uint (Nat.iter n Decimal.D0 d).
Proof.
  induction n as [|n IH]; [done|].
  cbn [repeat_char Nat.iter nat_rect]. by rewrite IH.
Qed.

Lemma of_uint_zeros (n : nat) (d : Decimal.uint) :
  Nat.of_uint (Nat.iter n Decimal.D0 d) = Nat.of_uint d.
Proof. induction n as [|n IH]; [done|]. exact IH. Qed.

Lemma padStart_decimal_inj (width n m : nat) :
  padStart width (decimal n) = padStart width (decimal m) → n = m.
Proof.
  unfold padStart, decimal. rewrite !repeat_char_zero_digits. intros H.
  apply (f_equal DecimalString.NilEmpty.uint_of_string) in H.
  rewrite !DecimalString.NilEmpty.usu in H. injection H as H.
  apply (f_equal Nat.of_uint) in H.
  by rewrite !of_uint_zeros, !DecimalNat.Unsigned.of_to in H.
Qed.

(** Two strings that agree up to their first slash agree before it and
    after it. *)
Lemma split_at_slash (a a' b b' : string) :
  has_slash a = false → has_slash a' = false →
  a +:+ "/" +:+ b = a' +:+ "/" +:+ b' → a = a' ∧ b = b'.
Proof.
  revert a'. induction a as [|c a IH]; intros [|c' a'] Ha Ha' H.
  - by injection H.
  - cbn in H, Ha'. injection H as <- _. by rewrite bool_decide_eq_true_2 in Ha'.
  - cbn in H, Ha. injection H as -> _. by rewrite bool_decide_eq_true_2 in Ha.
  - cbn in H, Ha, Ha'. injection H as -> H.
    apply orb_false_elim in Ha as [_ Ha]. apply orb_false_elim in Ha' as [_ Ha'].
    destruct (IH a' Ha Ha' H) as [-> ->]. done.
Qed.

(** The formatted date tells the date, also with a suffix behind it. *)
Lemma format_suffix_inj (d d' : Date) (suffix : string) :
  format_YYYY_MM_DD d +:+ "/" +:+ suffix
  = format_YYYY_MM_DD d' +:+ "/" +:+ suffix → d = d'.
Proof.
  unfold format_YYYY_MM_DD. rewrite !append_assoc. intros H.
  apply split_at_slash in H as [Hy H]; [|apply padStart_decimal_no_slash..].
  apply split_at_slash in H as [Hm H]; [|apply padStart_decimal_no_slash..].
  apply split_at_slash in H as [Hd _]; [|apply padStart_decimal_no_slash..].
  apply padStart_decimal_inj in Hy, Hm, Hd.
  destruct d, d'; simpl in *; by subst.
Qed.

Lemma log_document_inj (container : URI) (d d' : Date) :
  container +:+ format_YYYY_MM_DD d +:+ "/chat.ttl"
  = container +:+ format_YYYY_MM_DD d' +:+ "/chat.ttl" → d = d'.
Proof.
  intros H. apply (inj (String.app container)) in H.
  by apply (format_suffix_inj d d' "chat.ttl").
Qed.

(** The hook reads the clock twice: the update aims at the document of
    the second reading; [todayChat], and with it [messageId], is built
    from the first. *)
Lemma useCreateMessage_readings {imports : Imports} {W : Type} (h : Handler W)
    (w : W) (senderId : URI) (message : string) (chat : URI) :
  let r := run h (useCreateMessage senderId message chat) w in
  ∃ first second,
    omap clock_reading (trace r) = [first; second]
    ∧ omap update_target (calls (trace r))
      = [getContainer chat +:+ format_YYYY_MM_DD second +:+ "/chat.ttl"]
    ∧ ∀ created, outcome r = Returned created →
        todayChat created
        = getContainer chat +:+ format_YYYY_MM_DD first +:+ "/chat.ttl".
Proof.
  intros r. subst r. unfold useCreateMessage.
  explore h; ran; cbn [clock_reading update_target].
  all: do 2 eexists; split_and!; [done | done |].
  all: by intros created [= <-].
Qed.

(** For a run that returns, the document written is the [todayChat]
    returned exactly when the two readings of the clock agree. *)
Lemma todayChat_written_iff_same_day {imports : Imports} {W : Type}
    (h : Handler W) (w : W) (senderId : URI) (text : string) (chat : URI)
    (made : CreatedMessage) :
  let r := run h (useCreateMessage senderId text chat) w in
  outcome r = Returned made →
  ∃ first second,
    omap clock_reading (trace r) = [first; second]
    ∧ (omap update_target (calls (trace r)) = [todayChat made]
       ↔ first = second).
Proof.
  intros r. subst r. unfold useCreateMessage.
  explore h; ran; cbn [clock_reading update_target]; intros [= <-].
  do 2 eexists. split; [reflexivity|]. cbn [todayChat]. split.
  - intros [= H]. symmetry. by apply log_document_inj in H.
  - by intros ->.
Qed.

(** C6. The hook reads the clock twice, at line 36 for [chatFile] and
    again at line 41 for the document to update. In a run over midnight,
    with the first of May read first and the second of May read next, the
    message is appended to the log document of the second of May, while
    the [todayChat] the hook returns is the log document of the first of
    May and the [messageId] it returns, which is also the id of the
    message appended, is that document followed by "#msg-" and the uuid:
    the message id does not lie in the document the message is in, and a
    message of the first of May is not in that day's document. *)
Theorem message_misfiled_over_midnight :
  let r := run over_midnight
             (useCreateMessage (imports := sample_imports) bob "hello" bob_chat)
             may_first in
  omap clock_reading (trace r) = [may_first; next_day may_first]
  ∧ omap uuid_given (trace r) = ["uuid-0"]
  ∧ outcome r
    = Returned {| messageId := bob_log +:+ "#msg-uuid-0"; todayChat := bob_log;
                  createdAt := "2023-05-01T21:59:59.999Z" |}
  ∧ omap update_target (calls (trace r)) = [bob_log_next_day]
  ∧ bob_log_next_day ≠ bob_log
  ∧ ∃ uri subject transform,
      omap update_transform (calls (trace r)) = [(uri, subject, transform)]
      ∧ transform (sample_chat None)
        = (Returned (),
           set_message
             (Some [{| msg_id := bob_log +:+ "#msg-uuid-0";
                       msg_created := "2023-05-01T21:59:59.999Z";
                       msg_content := "hello";
                       msg_maker := AtId bob |}])
             (sample_chat None)).
Proof.
  split_and!; try (vm_compute; reflexivity).
  - discriminate.
  - do 3 eexists. split; [reflexivity|]. vm_compute. reflexivity.
Qed.

Example message_scenario :
  let r := run pod (useCreateMessage (imports := sample_imports) bob "hello"
                      bob_chat) (sample_pod bob_log_documents) in
  outcome r
  = Returned {| messageId := bob_log +:+ "#msg-uuid-0"; todayChat := bob_log;
                createdAt := "2023-05-01T10:00:00.000Z" |}
  ∧ documents (final r) !! bob_log
    = Some (ChatDocument
              (set_message
                 (Some [{| msg_id := bob_log +:+ "#msg-uuid-0";
                           msg_created := "2023-05-01T10:00:00.000Z";
                           msg_content := "hello";
                           msg_maker := AtId bob |}])
                 (sample_chat None))).
Proof. vm_compute. done. Qed.

(** * Further properties *)

(** ** What the chat transform leaves alone *)

(** X1. Whatever the chat and the outcome, the transform of
    [useProcessNotification] leaves the chat's id, type, author, creation
    time, title and messages as they were, and keeps the entries of the
    participation list in number, order, id, start and participant: the
    only thing it can change is the references of an entry. *)
Theorem processTransform_frame (otherChat otherPerson : URI) (ldo : ChatShape) :
  let ldo' := (processTransform otherChat otherPerson ldo).2 in
  chat_id ldo' = chat_id ldo
  ∧ chat_type ldo' = chat_type ldo
  ∧ author ldo' = author ldo
  ∧ created2 ldo' = created2 ldo
  ∧ title ldo' = title ldo
  ∧ message ldo' = message ldo
  ∧ fmap (M := list) (λ p, (part_id p, dtstart p, participant p))
      <$> participation ldo'
    = fmap (M := list) (λ p, (part_id p, dtstart p, participant p))
      <$> participation ldo.
Proof.
  destruct (processTransform_inv otherChat otherPerson ldo)
    as [(Hps & Hrun) | [(ps & Hps & Hlen & Hrun) |
        [(ps & Hps & Hlen & Hfind & Hrun) |
         [(ps & i & p & Hps & Hlen & Hfind & Hrefs & Hrun) |
          (ps & i & p & Hps & Hlen & Hfind & Hrefs & Hrun)]]]];
    rewrite Hrun; cbn [snd]; try done.
  split_and!; try done.
  rewrite Hps. cbn [participation set_participation fmap option_fmap option_map].
  f_equal. rewrite list_fmap_insert. apply list_insert_id.
  apply list_find_Some in Hfind as (Hi & _). by rewrite list_lookup_fmap, Hi.
Qed.

(** X2. The transform never removes or replaces a reference: every entry
    is still at its place afterwards, an entry that held a reference is
    exactly as it was, and every reference an entry held it still holds. *)
Theorem processTransform_keeps_references (otherChat otherPerson : URI)
    (ldo : ChatShape) (ps : list ChatParticipationShape) (j : nat)
    (p : ChatParticipationShape) :
  participation ldo = Some ps → ps !! j = Some p →
  ∃ ps' p',
    participation (processTransform otherChat otherPerson ldo).2 = Some ps'
    ∧ ps' !! j = Some p'
    ∧ (has_references p = true → p' = p)
    ∧ ∀ x, x ∈ default [] (references p) → x ∈ default [] (references p').
Proof.
  intros Hps Hj.
  destruct (processTransform_inv otherChat otherPerson ldo)
    as [(Hps' & Hrun) | [(ps0 & Hps' & Hlen & Hrun) |
        [(ps0 & Hps' & Hlen & Hfind & Hrun) |
         [(ps0 & i & q & Hps' & Hlen & Hfind & Hrefs & Hrun) |
          (ps0 & i & q & Hps' & Hlen & Hfind & Hrefs & Hrun)]]]];
    rewrite Hrun; cbn [snd]; simplify_eq.
  1-3: by exists ps, p.
  exists (<[i := set_references (Some [AtId otherChat]) q]> ps).
  destruct (decide (i = j)) as [->|Hne].
  - apply list_find_Some in Hfind as (Hi & _). simplify_eq.
    exists (set_references (Some [AtId otherChat]) p). split_and!.
    + done.
    + apply list_lookup_insert_eq. by eapply lookup_lt_Some.
    + congruence.
    + apply has_references_false in Hrefs as [-> | ->]; by intros x ?%elem_of_nil.
  - exists p. split_and!; try done. by rewrite list_lookup_insert_ne.
Qed.

Lemma processTransform_keeps_references_witness :
  ∃ ps' p',
    participation
      (processTransform alice_chat alice
         (sample_chat (Some [entry bob (Some [AtId bob_chat]); entry alice None]))).2
    = Some ps'
    ∧ ps' !! 0 = Some p'
    ∧ p' = entry bob (Some [AtId bob_chat]).
Proof.
  destruct (processTransform_keeps_references alice_chat alice
              (sample_chat (Some [entry bob (Some [AtId bob_chat]);
                                  entry alice None]))
              [entry bob (Some [AtId bob_chat]); entry alice None] 0
              (entry bob (Some [AtId bob_chat])) eq_refl eq_refl)
    as (ps' & p' & Hps' & Hp' & Hsame & _).
  exists ps', p'. split_and!; [done | done | by apply Hsame].
Defined.

(** X3. The transform never looks at [otherChat]: whether it throws, and
    with which error, is the same for every [otherChat], and a throw
    leaves the same chat. *)
Theorem processTransform_ignores_otherChat (otherChat otherChat' otherPerson : URI)
    (ldo : ChatShape) :
  (processTransform otherChat otherPerson ldo).1
  = (processTransform otherChat' otherPerson ldo).1
  ∧ ∀ e, (processTransform otherChat otherPerson ldo).1 = Thrown e →
      processTransform otherChat otherPerson ldo
      = processTransform otherChat' otherPerson ldo.
Proof.
  destruct (processTransform_inv otherChat otherPerson ldo)
    as [(Hps & Hrun) | [(ps & Hps & Hlen & Hrun) |
        [(ps & Hps & Hlen & Hfind & Hrun) |
         [(ps & i & p & Hps & Hlen & Hfind & Hrefs & Hrun) |
          (ps & i & p & Hps & Hlen & Hfind & Hrefs & Hrun)]]]];
    rewrite Hrun.
  - by rewrite processTransform_no_participation.
  - by rewrite (processTransform_too_much _ _ _ ps).
  - by rewrite (processTransform_not_found _ _ _ ps).
  - by rewrite (processTransform_already _ _ _ ps i p).
  - rewrite (processTransform_links otherChat' _ _ ps i p) by done. done.
Qed.

Lemma processTransform_ignores_otherChat_witness :
  processTransform alice_chat alice crowded_chat
  = processTransform bob_chat alice crowded_chat.
Proof.
  refine (proj2 (processTransform_ignores_otherChat alice_chat bob_chat alice
                   crowded_chat) too_much_participation _).
  vm_compute. reflexivity.
Defined.

(** ** Messages *)

Lemma messageTransform_appends {imports : Imports} (m : ChatMessageShape)
    (ldo : ChatShape) :
  messageTransform (msg_id m) (msg_created m) (msg_content m)
    (at_id (msg_maker m)) ldo
  = (Returned (), set_message (Some (default [] (message ldo) ++ [m])) ldo).
Proof. by destruct m as [? ? ? []]. Qed.

Lemma set_message_twice (a b : option (list ChatMessageShape)) (c : ChatShape) :
  set_message a (set_message b c) = set_message a c.
Proof. reflexivity. Qed.

Lemma set_message_same (c : ChatShape) : set_message (message c) c = c.
Proof. by destruct c. Qed.

(** X4. Messages accumulate: the transforms of any sequence of messages,
    applied one after the other, never throw, leave the messages the chat
    had in place, put the new ones behind them in the order of the
    transforms, and change nothing else of the chat. *)
Theorem messageTransform_accumulates {imports : Imports}
    (ms : list ChatMessageShape) (ldo : ChatShape) :
  let append := λ ldo m,
    (messageTransform (msg_id m) (msg_created m) (msg_content m)
       (at_id (msg_maker m)) ldo).2 in
  let ldo' := foldl append ldo ms in
  default [] (message ldo') = default [] (message ldo) ++ ms
  ∧ set_message (message ldo) ldo' = ldo
  ∧ Forall (λ m, ∀ ldo,
      (messageTransform (msg_id m) (msg_created m) (msg_content m)
         (at_id (msg_maker m)) ldo).1 = Returned ()) ms.
Proof.
  intros append ldo'. subst ldo'. split_and!.
  - revert ldo. induction ms as [|m ms IH]; intros ldo; cbn [foldl].
    + by rewrite app_nil_r.
    + rewrite IH. unfold append. rewrite messageTransform_appends.
      cbn [snd message set_message default id]. by rewrite <- app_assoc.
  - revert ldo. induction ms as [|m ms IH]; intros ldo; cbn [foldl].
    + apply set_message_same.
    + rewrite <- (set_message_twice (message ldo) (message (append ldo m))).
      rewrite IH. unfold append. rewrite messageTransform_appends. cbn [snd].
      rewrite set_message_twice. apply set_message_same.
  - apply Forall_forall. intros m _ ldo0. by rewrite messageTransform_appends.
Qed.

(** X5. In every run of [useCreateMessage] the hook makes one mutation
    and no other: an update whose subject is the chat. Whatever chat
    object that update's transform is given, it appends one message whose
    content is the given text and whose maker is [senderId]; and when the hook
    returns, the id and the creation time of that message are the
    [messageId] and the [createdAt] it returns. *)
Theorem message_as_returned {imports : Imports} {W : Type} (h : Handler W)
    (w : W) (senderId : URI) (text : string) (chat : URI) :
  let r := run h (useCreateMessage senderId text chat) w in
  step <$> calls (trace r)
    = [StepDayjs; StepUuid; StepTimestamp; StepDayjs; StepUpdateChat]
  ∧ ∃ uri transform id created,
      omap update_transform (calls (trace r)) = [(uri, chat, transform)]
      ∧ omap timestamp_given (trace r) = [created]
      ∧ (∀ ldo,
           transform ldo
           = (Returned (),
              set_message
                (Some (default [] (message ldo) ++
                       [{| msg_id := id; msg_created := created;
                           msg_content := text;
                           msg_maker := AtId senderId |}]))
                ldo))
      ∧ ∀ made, outcome r = Returned made →
          messageId made = id ∧ createdAt made = created.
Proof.
  intros r. subst r. unfold useCreateMessage.
  explore h; ran; cbn [step update_transform timestamp_given].
  all: split; [done|]; do 4 eexists; split_and!; try done.
  all: by intros made [= <-].
Qed.

(** A formatted date followed by a slash tells the date and what follows. *)
Lemma format_then_inj (d d' : Date) (s s' : string) :
  format_YYYY_MM_DD d +:+ "/" +:+ s = format_YYYY_MM_DD d' +:+ "/" +:+ s' →
  d = d' ∧ s = s'.
Proof.
  unfold format_YYYY_MM_DD. rewrite !append_assoc. intros H.
  apply split_at_slash in H as [Hy H]; [|apply padStart_decimal_no_slash..].
  apply split_at_slash in H as [Hm H]; [|apply padStart_decimal_no_slash..].
  apply split_at_slash in H as [Hd Hs]; [|apply padStart_decimal_no_slash..].
  apply padStart_decimal_inj in Hy, Hm, Hd.
  split; [|done]. destruct d, d'; simpl in *; by subst.
Qed.

(** What a run of [useCreateMessage] that returns gives back, from the
    first date read and the uuid drawn. *)
Lemma useCreateMessage_returns {imports : Imports} {W : Type} (h : Handler W)
    (w : W) (senderId : URI) (text : string) (chat : URI) (made : CreatedMessage) :
  let r := run h (useCreateMessage senderId text chat) w in
  outcome r = Returned made →
  ∃ first second uuid,
    omap clock_reading (trace r) = [first; second]
    ∧ omap uuid_given (trace r) = [uuid]
    ∧ todayChat made
      = getContainer chat +:+ format_YYYY_MM_DD first +:+ "/chat.ttl"
    ∧ messageId made = todayChat made +:+ "#msg-" +:+ uuid.
Proof.
  intros r. subst r. unfold useCreateMessage.
  explore h; ran; cbn [clock_reading uuid_given]; intros [= <-].
  by do 3 eexists.
Qed.

(** X6. Message ids of one chat do not collide: two runs of
    [useCreateMessage] on the same chat return the same [messageId]
    exactly when they drew the same uuid and built the same [todayChat],
    that is, read the same date first. *)
Theorem messageId_unique {imports : Imports} {W1 W2 : Type}
    (h1 : Handler W1) (h2 : Handler W2) (w1 : W1) (w2 : W2)
    (chat senderId1 senderId2 : URI) (text1 text2 : string)
    (made1 made2 : CreatedMessage) :
  let r1 := run h1 (useCreateMessage senderId1 text1 chat) w1 in
  let r2 := run h2 (useCreateMessage senderId2 text2 chat) w2 in
  outcome r1 = Returned made1 → outcome r2 = Returned made2 →
  (messageId made1 = messageId made2
   ↔ omap uuid_given (trace r1) = omap uuid_given (trace r2)
     ∧ todayChat made1 = todayChat made2)
  ∧ (todayChat made1 = todayChat made2
     ↔ head (omap clock_reading (trace r1)) = head (omap clock_reading (trace r2))).
Proof.
  intros r1 r2 Hret1 Hret2. subst r1 r2.
  destruct (useCreateMessage_returns h1 w1 senderId1 text1 chat made1 Hret1)
    as (a1 & b1 & u1 & Hc1 & Hu1 & Ht1 & Hm1).
  destruct (useCreateMessage_returns h2 w2 senderId2 text2 chat made2 Hret2)
    as (a2 & b2 & u2 & Hc2 & Hu2 & Ht2 & Hm2).
  rewrite Hu1, Hu2, Hc1, Hc2, Hm1, Hm2, Ht1, Ht2. cbn [head]. split.
  - split.
    + rewrite !append_assoc. intros H.
      apply (inj (String.app (getContainer chat))) in H.
      apply (format_then_inj a1 a2) in H as [-> H].
      apply (inj (String.app "chat.ttl#msg-")) in H. by subst.
    + by intros [[= ->] ->].
  - split.
    + intros H%log_document_inj. by subst.
    + by intros [= ->].
Qed.

Lemma messageId_unique_witness :
  let r := run pod (useCreateMessage (imports := sample_imports) bob "hello"
                      bob_chat) (sample_pod bob_log_documents) in
  let made := {| messageId := bob_log +:+ "#msg-uuid-0"; todayChat := bob_log;
                 createdAt := "2023-05-01T10:00:00.000Z" |} in
  outcome r = Returned made
  ∧ (messageId made = messageId made
     ↔ omap uuid_given (trace r) = omap uuid_given (trace r)
       ∧ todayChat made = todayChat made).
Proof.
  intros r made.
  assert (Hret : outcome r = Returned made) by (vm_compute; reflexivity).
  split; [exact Hret|].
  exact (proj1 (messageId_unique (imports := sample_imports) pod pod
                  (sample_pod bob_log_documents) (sample_pod bob_log_documents)
                  bob_chat bob bob "hello" "hello" made made Hret Hret)).
Defined.

(** ** Errors *)

(** Look at the event at each place of an explicit trace. *)
Ltac at_each_place i Hi Hrej :=
  ran; cbn [length];
  repeat (destruct i as [|i];
          [ injection Hi as <-; cbn [rejection rejected] in Hrej;
            first [discriminate Hrej | by injection Hrej as <-]
          | cbn [lookup list_lookup] in Hi ]);
  try discriminate Hi; try by destruct i.

(** X7. No hook swallows an error or goes on after one: in every run of
    each of the four hooks, a mutation or a fetch that is rejected is the
    last call of the run, and its error is the error the hook throws. *)
Theorem rejections_surface {imports : Imports} {W : Type} (h : Handler W) (w : W) :
  (∀ senderId text chat i ev e,
     let r := run h (useCreateMessage senderId text chat) w in
     trace r !! i = Some ev → rejection ev = Some e →
     outcome r = Thrown e ∧ S i = length (trace r))
  ∧ (∀ inbox senderId messageId chatId updated i ev e,
       let r := run h (useCreateMessageNotification inbox senderId messageId
                         chatId updated) w in
       trace r !! i = Some ev → rejection ev = Some e →
       outcome r = Thrown e ∧ S i = length (trace r))
  ∧ (∀ me otherPerson otherChat hospexContainer privateTypeIndex i ev e,
       let r := run h (useCreateChat me otherPerson otherChat hospexContainer
                         privateTypeIndex) w in
       trace r !! i = Some ev → rejection ev = Some e →
       outcome r = Thrown e ∧ S i = length (trace r))
  ∧ (∀ notificationId chat otherChat otherPerson i ev e,
       let r := run h (useProcessNotification notificationId chat otherChat
                         otherPerson) w in
       trace r !! i = Some ev → rejection ev = Some e →
       outcome r = Thrown e ∧ S i = length (trace r)).
Proof.
  split_and!.
  - intros senderId text chat i ev e r. subst r. unfold useCreateMessage.
    explore h; intros Hi Hrej; at_each_place i Hi Hrej.
  - intros inbox senderId messageId chatId updated i ev e r. subst r.
    unfold useCreateMessageNotification.
    explore h; intros Hi Hrej; at_each_place i Hi Hrej.
  - intros me otherPerson otherChat hospexContainer privateTypeIndex i ev e r.
    subst r. unfold useCreateChat.
    explore h; intros Hi Hrej; at_each_place i Hi Hrej.
  - intros notificationId chat otherChat otherPerson i ev e r. subst r.
    unfold useProcessNotification.
    explore h; intros Hi Hrej; at_each_place i Hi Hrej.
Qed.

Lemma rejections_surface_witness :
  let r := run pod (useProcessNotification bob_notification bob_chat
                      alice_chat alice) (sample_pod crowded_documents) in
  outcome r = Thrown too_much_participation ∧ 1 = length (trace r).
Proof.
  refine (proj2 (proj2 (proj2 (rejections_surface (imports := sample_imports)
            pod (sample_pod crowded_documents))))
            bob_notification bob_chat alice_chat alice 0
            (Ev (UpdateChatDocument bob_chat bob_chat
                   (processTransform alice_chat alice))
                (Thrown too_much_participation))
            too_much_participation _ _).
  - reflexivity.
  - reflexivity.
Defined.

(** X8. The hooks throw nothing of their own but the missing-WAC-link
    error of [useCreateChat]: in every run, an error thrown by
    [useCreateMessage], [useCreateMessageNotification] or
    [useProcessNotification] is the error its last call was rejected
    with, and so is an error thrown by [useCreateChat] unless it is the
    WAC-link error. *)
Theorem thrown_errors_come_from_calls {imports : Imports} {W : Type}
    (h : Handler W) (w : W) :
  (∀ senderId text chat e,
     let r := run h (useCreateMessage senderId text chat) w in
     outcome r = Thrown e →
     ∃ ev, last (trace r) = Some ev ∧ rejection ev = Some e)
  ∧ (∀ inbox senderId messageId chatId updated e,
       let r := run h (useCreateMessageNotification inbox senderId messageId
                         chatId updated) w in
       outcome r = Thrown e →
       ∃ ev, last (trace r) = Some ev ∧ rejection ev = Some e)
  ∧ (∀ me otherPerson otherChat hospexContainer privateTypeIndex e,
       let r := run h (useCreateChat me otherPerson otherChat hospexContainer
                         privateTypeIndex) w in
       outcome r = Thrown e →
       e = no_wac_link
       ∨ ∃ ev, last (trace r) = Some ev ∧ rejection ev = Some e)
  ∧ (∀ notificationId chat otherChat otherPerson e,
       let r := run h (useProcessNotification notificationId chat otherChat
                         otherPerson) w in
       outcome r = Thrown e →
       ∃ ev, last (trace r) = Some ev ∧ rejection ev = Some e).
Proof.
  split_and!.
  - intros senderId text chat e r. subst r. unfold useCreateMessage.
    explore h; ran; intros [= <-]. by eexists.
  - intros inbox senderId messageId chatId updated e r. subst r.
    unfold useCreateMessageNotification.
    explore h; ran; intros [= <-]. by eexists.
  - intros me otherPerson otherChat hospexContainer privateTypeIndex e r.
    subst r. unfold useCreateChat.
    explore h; ran; intros [= <-]; first [by left | right; by eexists].
  - intros notificationId chat otherChat otherPerson e r. subst r.
    unfold useProcessNotification.
    explore h; ran; intros [= <-]; by eexists.
Qed.

Lemma thrown_errors_come_from_calls_witness :
  let r := run pod (useProcessNotification bob_notification bob_chat
                      alice_chat alice) (sample_pod crowded_documents) in
  ∃ ev, last (trace r) = Some ev ∧ rejection ev = Some too_much_participation.
Proof.
  refine (proj2 (proj2 (proj2 (thrown_errors_come_from_calls
            (imports := sample_imports) pod (sample_pod crowded_documents))))
            bob_notification bob_chat alice_chat alice
            too_much_participation _).
  vm_compute. reflexivity.
Defined.

(** ** More on [useCreateChat] *)

Section CreateChatMore.
Context {imports : Imports} {W : Type} (h : Handler W) (w : W).
Context (me otherPerson : URI) (otherChat : option URI).
Context (hospexContainer privateTypeIndex : URI).

(** X9. What [useCreateChat] returns names what it made: the container is
    [hospexContainer] followed by "messages/", the first uuid drawn and a
    slash; the file is "index.ttl" in it and the chat id "#this" in the
    file; the chat document was created at the file with the chat id as
    its id; the HEAD request went to the container; and the update of the
    private type index, aimed at [privateTypeIndex] as document and
    subject, registers the chat id. *)
Theorem created_chat_names :
  let r := run h (useCreateChat me otherPerson otherChat hospexContainer
                    privateTypeIndex) w in
  ∀ made, outcome r = Returned made →
  ∃ uuid more data transform,
    omap uuid_given (trace r) = uuid :: more
    ∧ chatContainer made = hospexContainer +:+ "messages/" +:+ uuid +:+ "/"
    ∧ chatFile made = chatContainer made +:+ "index.ttl"
    ∧ chatId made = chatFile made +:+ "#this"
    ∧ omap created_chat (calls (trace r)) = [(chatFile made, data)]
    ∧ chat_id data = chatId made
    ∧ omap fetch_target (calls (trace r)) = [(chatContainer made, "HEAD")]
    ∧ omap index_update (calls (trace r))
      = [(privateTypeIndex, privateTypeIndex, transform)]
    ∧ ∀ uuid' ldo, transform uuid' ldo = typeIndexTransform (chatId made) uuid' ldo.
Proof.
  intros r made. subst r. unfold useCreateChat.
  explore h; ran; cbn [uuid_given fetch_target index_update];
    intros Hret; try discriminate Hret.
  injection Hret as <-. by do 4 eexists.
Qed.

(** X10. The calls of [useCreateChat] to the store and the network come
    in one order and none is skipped: in every run they are a beginning of
    chat creation, HEAD, authorization creation, type-index update; the
    chat creation is always made; and a run that returns made all four.
    The draws of uuids and the reading of the clock are not counted here
    (one uuid is drawn inside the type-index transform, while the update
    runs). *)
Theorem useCreateChat_steps_in_order :
  let r := run h (useCreateChat me otherPerson otherChat hospexContainer
                    privateTypeIndex) w in
  let steps := [StepCreateChat; StepFetch; StepCreateAuthorization;
                StepUpdateTypeIndex] in
  omap request_step (calls (trace r)) `prefix_of` steps
  ∧ [StepCreateChat] `prefix_of` omap request_step (calls (trace r))
  ∧ (∀ made, outcome r = Returned made →
       omap request_step (calls (trace r)) = steps).
Proof.
  intros r steps. subst r steps. unfold useCreateChat.
  explore h; ran; cbn [request_step step].
  all: split_and!; [by eexists | by eexists | by intros made [= <-]].
Qed.

(** X11. An [acl] link whose URL is the empty string is no link: when the
    HEAD request is answered with one, the hook throws the WAC-link error
    and no call of the run creates an authorization or updates the
    private type index. *)
Theorem empty_acl_url_aborts :
  let r := run h (useCreateChat me otherPerson otherChat hospexContainer
                    privateTypeIndex) w in
  ∀ response,
    omap fetch_response (trace r) = [Returned response] →
    url <$> (parseLinkHeader (link_header response) ≫= acl) = Some EmptyString →
    outcome r = Thrown no_wac_link
    ∧ ∀ c, c ∈ calls (trace r) →
        is_create_authorization c = false ∧ is_update_type_index c = false.
Proof.
  intros r response. subst r. unfold useCreateChat.
  explore h; ran; cbn [fetch_response]; intros Hfetch Hurl;
    try discriminate Hfetch.
  all: injection Hfetch as ->.
  all: match goal with
       | H : url <$> _ = Some ?s, H' : negb (truthy ?s) = _ |- _ =>
         rewrite Hurl in H; injection H as <-
       | H : url <$> _ = None |- _ => rewrite Hurl in H; discriminate H
       end.
  all: try match goal with
           | H : negb (truthy EmptyString) = false |- _ => discriminate H
           end.
  all: split; [done|]; intros c Hc; each Hc; by subst c.
Qed.
End CreateChatMore.

Lemma created_chat_names_witness :
  let r := run pod (useCreateChat (imports := sample_imports) alice bob None
                      alice_hospex alice_index) alice_pod in
  ∃ data,
    omap created_chat (calls (trace r)) = [(chatFile alice_created, data)]
    ∧ chat_id data = chatId alice_created.
Proof.
  destruct (created_chat_names (imports := sample_imports) pod alice_pod
              alice bob None alice_hospex alice_index alice_created)
    as (uuid & more & data & transform & _ & _ & _ & _ & Hc & Hid & _).
  - vm_compute. reflexivity.
  - by exists data.
Defined.

Lemma useCreateChat_steps_in_order_witness :
  omap request_step
    (calls (trace (run pod (useCreateChat (imports := sample_imports)
                              alice bob None alice_hospex alice_index)
                     alice_pod)))
  = [StepCreateChat; StepFetch; StepCreateAuthorization; StepUpdateTypeIndex].
Proof.
  refine (proj2 (proj2 (useCreateChat_steps_in_order (imports := sample_imports)
                          pod alice_pod alice bob None alice_hospex alice_index))
            alice_created _).
  vm_compute. reflexivity.
Defined.

Lemma empty_acl_url_aborts_witness :
  outcome (run pod (useCreateChat (imports := sample_imports) alice bob None
                      alice_hospex alice_index) alice_pod_empty_link)
  = Thrown no_wac_link.
Proof.
  refine (proj1 (empty_acl_url_aborts (imports := sample_imports) pod
                   alice_pod_empty_link alice bob None alice_hospex alice_index
                   {| link_header := Some EmptyString |} _ _)).
  - vm_compute. reflexivity.
  - reflexivity.
Defined.

(** ** From a new chat to its link *)

(** [find] on a list of two entries. *)
Lemma find_first_of_two (op : URI) (p1 p2 : ChatParticipationShape) :
  participant_id p1 = Some op →
  list_find (λ p, participant_id p = Some op) [p1; p2] = Some (0, p1).
Proof.
  intros H1. apply list_find_Some. split_and!; [done | done |].
  intros j y _ Hj. lia.
Qed.

Lemma find_second_of_two (op : URI) (p1 p2 : ChatParticipationShape) :
  participant_id p1 ≠ Some op → participant_id p2 = Some op →
  list_find (λ p, participant_id p = Some op) [p1; p2] = Some (1, p2).
Proof.
  intros H1 H2. apply list_find_Some. split_and!; [done | done |].
  intros j y Hj Hlt. destruct j as [|j]; [|lia]. by injection Hj as <-.
Qed.

Section CreateThenProcess.
Context {imports : Imports} {W : Type} (h : Handler W) (w : W).
Context (me otherPerson : URI) (otherChat : option URI).
Context (hospexContainer privateTypeIndex : URI).

(** X12. The chat document that [useCreateChat] creates, given to the
    transform of [useProcessNotification]: for [otherPerson], when that is
    not [me], it is linked at its second entry if it was created without
    an [otherChat] (or with the empty string), and rejected as already
    referencing if it was created with one; for [me] it is always linked,
    at its first entry. It never fails the participation guards. *)
Theorem created_chat_then_processed :
  let r := run h (useCreateChat me otherPerson otherChat hospexContainer
                    privateTypeIndex) w in
  ∃ uri data p1 p2,
    omap created_chat (calls (trace r)) = [(uri, data)]
    ∧ participation data = Some [p1; p2]
    ∧ ∀ linked,
        (me ≠ otherPerson →
           (∀ c, otherChat = Some c → c ≠ EmptyString →
              processTransform linked otherPerson data
              = (Thrown already_references, data))
           ∧ (otherChat = None ∨ otherChat = Some EmptyString →
              processTransform linked otherPerson data
              = (Returned (),
                 set_participation
                   (Some [p1; set_references (Some [AtId linked]) p2]) data)))
        ∧ processTransform linked me data
          = (Returned (),
             set_participation
               (Some [set_references (Some [AtId linked]) p1; p2]) data).
Proof.
  intros r. subst r. unfold useCreateChat.
  explore h; ran.
  all: do 4 eexists; split_and!; [reflexivity | reflexivity |].
  all: intros linked; split; [intros Hne; split|].
  all: try (intros c -> Hc;
            eapply processTransform_already;
              [ reflexivity | cbn; lia
              | apply find_second_of_two; cbn; congruence
              | by destruct c ]).
  all: try (intros Hnone;
            etrans;
              [ eapply (processTransform_links _ _ _ _ 1);
                [ reflexivity | cbn; lia
                | apply find_second_of_two; cbn; congruence
                | by destruct Hnone as [-> | ->] ]
              | reflexivity ]).
  all: etrans;
         [ eapply (processTransform_links _ _ _ _ 0);
           [ reflexivity | cbn; lia | by apply find_first_of_two | done ]
         | reflexivity ].
Qed.
End CreateThenProcess.

Lemma created_chat_then_processed_witness :
  let r := run pod (useCreateChat (imports := sample_imports) alice bob None
                      alice_hospex alice_index) alice_pod in
  ∃ uri data p1 p2,
    omap created_chat (calls (trace r)) = [(uri, data)]
    ∧ participation data = Some [p1; p2]
    ∧ processTransform bob_chat bob data
      = (Returned (),
         set_participation
           (Some [p1; set_references (Some [AtId bob_chat]) p2]) data).
Proof.
  destruct (created_chat_then_processed (imports := sample_imports) pod
              alice_pod alice bob None alice_hospex alice_index)
    as (uri & data & p1 & p2 & Hc & Hp & Hlink).
  exists uri, data, p1, p2. split_and!; [done | done |].
  apply (Hlink bob_chat); [discriminate | by left].
Defined.

(** ** More on the private type index *)

Section TypeIndexMore.
Context {imports : Imports}.

(** The registration that the transform appends is one for LongChat. *)
Lemma new_registration_registers (id : URI) (insts : option (list NodeRef)) :
  registers_LongChat
    {| reg_id := id; reg_type := AtId "TypeRegistration";
       forClass := [AtId "LongChat"]; instance := insts |}.
Proof. apply Exists_cons_hd. by right. Qed.

(** Appending instances to a registration does not change whether it is
    one for LongChat. *)
Lemma set_instance_registers (insts : option (list NodeRef))
    (registration : TypeRegistration) :
  registers_LongChat (set_instance insts registration)
  ↔ registers_LongChat registration.
Proof. done. Qed.

(** The two ways the transform goes. *)
Lemma typeIndexTransform_inv (chatId : URI) (uuid : string)
    (ldo : PrivateTypeIndex) :
  (∃ rs i registration,
     index_references ldo = Some rs
     ∧ list_find registers_LongChat rs = Some (i, registration)
     ∧ typeIndexTransform chatId uuid ldo
       = (Returned (),
          set_index_references
            (Some (<[i := set_instance
                            (Some (default [] (instance registration) ++
                                   [AtId chatId]))
                            registration]> rs))
            ldo))
  ∨ (list_find registers_LongChat (default [] (index_references ldo)) = None
     ∧ typeIndexTransform chatId uuid ldo
       = (Returned (),
          set_index_references
            (Some (default [] (index_references ldo) ++
                   [{| reg_id := publicTypeIndex +:+ "#" +:+ uuid;
                       reg_type := AtId "TypeRegistration";
                       forClass := [AtId "LongChat"];
                       instance := Some [AtId chatId] |}]))
            ldo)).
Proof.
  unfold typeIndexTransform.
  destruct (index_references ldo) as [rs|] eqn:Hrs; cbn [mbind option_bind default].
  - destruct (list_find registers_LongChat rs) as [[i registration]|] eqn:Hfind.
    + left. by exists rs, i, registration.
    + by right.
  - by right.
Qed.

(** After the transform the first registration for LongChat ends with
    the chat id. *)
Lemma typeIndexTransform_finds (chatId : URI) (uuid : string)
    (ldo : PrivateTypeIndex) :
  ∃ rs i registration insts,
    index_references (typeIndexTransform chatId uuid ldo).2 = Some rs
    ∧ list_find registers_LongChat rs = Some (i, registration)
    ∧ instance registration = Some insts
    ∧ last insts = Some (AtId chatId).
Proof.
  destruct (typeIndexTransform_inv chatId uuid ldo)
    as [(rs & i & registration & Hrs & Hfind & ->) | (Hnone & ->)]; cbn [snd].
  - exists (<[i := set_instance
                    (Some (default [] (instance registration) ++ [AtId chatId]))
                    registration]> rs), i,
      (set_instance
         (Some (default [] (instance registration) ++ [AtId chatId]))
         registration),
      (default [] (instance registration) ++ [AtId chatId]).
    split_and!; [reflexivity | | reflexivity | apply last_snoc].
    apply list_find_Some in Hfind as (Hi & HP & Hleast).
    apply list_find_Some. split_and!.
    + apply list_lookup_insert_eq. by eapply lookup_lt_Some.
    + done.
    + intros j y Hj Hlt. rewrite list_lookup_insert_ne in Hj by lia. eauto.
  - eexists _, (0 + length (default [] (index_references ldo))),
      {| reg_id := publicTypeIndex +:+ "#" +:+ uuid;
         reg_type := AtId "TypeRegistration";
         forClass := [AtId "LongChat"];
         instance := Some [AtId chatId] |}, [AtId chatId].
    split_and!; [reflexivity | | reflexivity | reflexivity].
    rewrite list_find_app_r by done. cbn.
    rewrite decide_True by apply new_registration_registers. reflexivity.
Qed.

(** X13. After the transform the index has a registration for LongChat,
    whatever it held before, and the chat id is the last instance of the
    first such registration. A second transform, for any chat id, the
    same one included, adds no registration: it appends its chat id to the
    instances of that same registration, right behind the first. *)
Theorem typeIndexTransform_registered (chatId chatId' : URI)
    (uuid uuid' : string) (ldo : PrivateTypeIndex) :
  let once := (typeIndexTransform chatId uuid ldo).2 in
  let twice := (typeIndexTransform chatId' uuid' once).2 in
  ∃ rs i registration insts,
    index_references once = Some rs
    ∧ list_find registers_LongChat rs = Some (i, registration)
    ∧ instance registration = Some (insts ++ [AtId chatId])
    ∧ index_references twice
      = Some (<[i := set_instance
                       (Some (insts ++ [AtId chatId; AtId chatId']))
                       registration]> rs).
Proof.
  intros once twice. subst once twice.
  destruct (typeIndexTransform_finds chatId uuid ldo)
    as (rs & i & registration & insts & Hrs & Hfind & Hinsts & Hlast).
  apply last_Some in Hlast as [front ->].
  exists rs, i, registration, front. split_and!; [done | done | done |].
  destruct (typeIndexTransform_inv chatId' uuid'
              (typeIndexTransform chatId uuid ldo).2)
    as [(rs' & i' & registration' & Hrs' & Hfind' & ->) | (Hnone & _)].
  - simplify_eq. cbn [snd set_index_references index_references].
    rewrite Hinsts. cbn [default id]. by rewrite <- app_assoc.
  - rewrite Hrs in Hnone. cbn [default id] in Hnone. congruence.
Qed.

(** X14. The transform removes nothing and moves nothing: every
    registration is still at its place, with its id, its type and its
    classes; the instances it had are the beginning of the instances it
    has; a registration that is not for LongChat is exactly as it was; and
    the index keeps its id. *)
Theorem typeIndexTransform_keeps (chatId : URI) (uuid : string)
    (ldo : PrivateTypeIndex) (rs : list TypeRegistration) (j : nat)
    (registration : TypeRegistration) :
  index_references ldo = Some rs → rs !! j = Some registration →
  index_id (typeIndexTransform chatId uuid ldo).2 = index_id ldo
  ∧ ∃ rs' registration',
      index_references (typeIndexTransform chatId uuid ldo).2 = Some rs'
      ∧ rs' !! j = Some registration'
      ∧ reg_id registration' = reg_id registration
      ∧ reg_type registration' = reg_type registration
      ∧ forClass registration' = forClass registration
      ∧ default [] (instance registration)
          `prefix_of` default [] (instance registration')
      ∧ (¬ registers_LongChat registration → registration' = registration).
Proof.
  intros Hrs Hj.
  destruct (typeIndexTransform_inv chatId uuid ldo)
    as [(rs0 & i & found & Hrs0 & Hfind & ->) | (Hnone & ->)]; cbn [snd].
  - split; [done|]. simplify_eq.
    apply list_find_Some in Hfind as (Hi & HP & _).
    destruct (decide (i = j)) as [->|Hne].
    + simplify_eq. eexists _, _. split; [reflexivity|].
      rewrite list_lookup_insert_eq by (by eapply lookup_lt_Some).
      split_and!; try done. by eexists.
    + eexists _, registration. split; [reflexivity|].
      rewrite list_lookup_insert_ne by done. by split_and!.
  - split; [done|]. rewrite Hrs. cbn [default].
    eexists _, registration. split; [reflexivity|].
    split_and!; try done. by apply lookup_app_l_Some.
Qed.
End TypeIndexMore.

Lemma typeIndexTransform_keeps_witness :
  ∃ rs' registration',
    index_references
      (typeIndexTransform (imports := sample_imports) alice_chat "u"
         (sample_index (Some [other_registration; chat_registration None]))).2
    = Some rs'
    ∧ rs' !! 0 = Some registration'
    ∧ registration' = other_registration.
Proof.
  destruct (typeIndexTransform_keeps (imports := sample_imports) alice_chat "u"
              (sample_index (Some [other_registration; chat_registration None]))
              [other_registration; chat_registration None] 0
              other_registration eq_refl eq_refl)
    as (_ & rs' & registration' & Hrs' & Hj & _ & _ & _ & _ & Hsame).
  exists rs', registration'. split_and!; [done | done |].
  apply Hsame. intros H. apply Exists_cons in H as [[H|H]|H]; [done | done |].
  by apply Exists_nil in H.
Defined.

(** ** The Cypress command [createRandomAccount] *)

Lemma length_append (s t : string) :
  String.length (s +:+ t) = String.length s + String.length t.
Proof.
  induction s as [|c s IH]; [done|].
  rewrite append_String. cbn [String.length]. by rewrite IH.
Qed.

(** What stands before a common ending is equal. *)
Lemma append_inj_l (t s s' : string) : s +:+ t = s' +:+ t → s = s'.
Proof.
  revert s'. induction s as [|c s IH]; intros [|c' s'] H.
  - done.
  - apply (f_equal String.length) in H. rewrite !length_append in H.
    cbn in H. lia.
  - apply (f_equal String.length) in H. rewrite !length_append in H.
    cbn in H. lia.
  - rewrite !append_String in H. injection H as -> H. f_equal. by apply IH.
Qed.

(** X15. The account that [createRandomAccount] yields hangs together,
    and is the one it asks the server to register: the pod is the user's
    folder at the identity provider, the WebID is "profile/card#me" in the
    pod, the registration goes by POST to "idp/register/" at the identity
    provider, and the form carries the yielded user name as pod name, the
    yielded email, and the yielded password twice. *)
Theorem createRandomAccount_consistent (cssUrl uuid : string) :
  let request := (createRandomAccount cssUrl uuid).1 in
  let config := (createRandomAccount cssUrl uuid).2 in
  podUrl config = idp config +:+ username config +:+ "/"
  ∧ webId config = podUrl config +:+ "profile/card#me"
  ∧ request_method request = "POST"
  ∧ request_url request = idp config +:+ "idp/register/"
  ∧ form_podName (request_body request) = username config
  ∧ form_email (request_body request) = email config
  ∧ form_password (request_body request) = password config
  ∧ form_confirmPassword (request_body request) = password config.
Proof.
  cbn [createRandomAccount fst snd podUrl idp username webId request_method
       request_url request_body form_podName form_email form_password
       form_confirmPassword email password].
  split_and!; try reflexivity.
  all: rewrite !append_assoc; reflexivity.
Qed.

(** X16. Accounts drawn with different uuids share nothing: for one
    server, two accounts have the same user name, the same pod, the same
    WebID or the same email only if their uuids are the same. *)
Theorem createRandomAccount_distinct (cssUrl uuid uuid' : string) :
  let config := (createRandomAccount cssUrl uuid).2 in
  let config' := (createRandomAccount cssUrl uuid').2 in
  (username config = username config' → uuid = uuid')
  ∧ (podUrl config = podUrl config' → uuid = uuid')
  ∧ (webId config = webId config' → uuid = uuid')
  ∧ (email config = email config' → uuid = uuid').
Proof.
  cbn [createRandomAccount snd username podUrl webId email]. split_and!.
  - intros H. by apply (inj (String.app "test-")) in H.
  - intros H. apply (inj (String.app cssUrl)) in H.
    apply (inj (String.app "/")) in H. apply (inj (String.app "test-")) in H.
    by apply append_inj_l in H.
  - intros H. apply (inj (String.app cssUrl)) in H.
    apply (inj (String.app "/")) in H. apply (inj (String.app "test-")) in H.
    by apply append_inj_l in H.
  - intros H. rewrite !append_assoc in H.
    apply (inj (String.app "test-")) in H. by apply append_inj_l in H.
Qed.


Lemma createRandomAccount_distinct_witness :
  ("6f1c" : string) = "6f1c".
Proof.
  exact (proj1 (createRandomAccount_distinct "https://css.example" "6f1c" "6f1c")
           eq_refl).
Defined.

(** ** The delete of [useProcessNotification] *)

(** X17. In every run of [useProcessNotification] in which the chat
    update resolves, the hook goes on to exactly one more call, the delete
    of the notification, and ends as that delete ends: it returns when the
    delete resolves and throws the delete's error when it is rejected, the
    chat update standing in both cases. *)
Theorem delete_follows_update {W : Type} (h : Handler W) (w : W)
    (notificationId chat otherChat otherPerson : URI) :
  let update := UpdateChatDocument chat chat (processTransform otherChat otherPerson) in
  let r := run h (useProcessNotification notificationId chat otherChat otherPerson) w in
  ∀ u, (h update w).1 = Returned u →
    calls (trace r) = [update; DeleteRdfDocument notificationId]
    ∧ outcome r = (h (DeleteRdfDocument notificationId) (h update w).2).1
    ∧ final r = (h (DeleteRdfDocument notificationId) (h update w).2).2.
Proof.
  intros update r u. subst r. cbn [run useProcessNotification]. fold update.
  destruct (h update w) as [o w1]. cbn [fst snd]. intros ->. cbn [run].
  by destruct (h (DeleteRdfDocument notificationId) w1) as [[[]|e] w2].
Qed.

Lemma delete_follows_update_witness :
  let r := run pod (useProcessNotification bob_notification bob_chat
                      alice_chat alice) (sample_pod bob_documents) in
  calls (trace r)
  = [UpdateChatDocument bob_chat bob_chat (processTransform alice_chat alice);
     DeleteRdfDocument bob_notification].
Proof.
  refine (proj1 (delete_follows_update pod (sample_pod bob_documents)
                   bob_notification bob_chat alice_chat alice () _)).
  vm_compute. reflexivity.
Defined.
